(** * flexselect: a shallow embedding of [flexselect/__init__.py]

    The module is Django glue code: a choice builder, an instance resolver,
    a process-wide widget registry keyed by a salted SHA-1 name, and the
    widget's [render].  Python values are modelled by a small universe,
    exceptions by an explicit [result] type, the class-level dictionary
    [FlexBaseWidget.instances] by a location in a store of dictionaries and
    widget objects by addresses in a heap, so that aliasing is visible.

    Text is represented by its UTF-8 bytes (a Rocq [string]); since UTF-8
    encoding distributes over concatenation, [''.join(...).encode('utf-8')]
    is string concatenation on this representation.  The builtin [int] is a
    field of the run-time [Python], so that what is proved of
    [_get_instance] holds for whatever [int] accepts; [cpython] gives it as
    CPython 3.11 computes it. *)

From Stdlib Require Import ZArith String Ascii List Lia.
From stdpp Require Import base option list gmap strings.
Import ListNotations.

Local Open Scope string_scope.

(** ** Python run-time: exceptions and results *)

Inductive exn : Type :=
| AttributeError
| ObjectDoesNotExist
| ValueError
| TypeError
| IndexError
| NotImplementedError
| NoReverseMatch
| ValidationError.

Inductive result (A : Type) : Type :=
| Ok (a : A)
| Raise (e : exn).

Arguments Ok {A} a.
Arguments Raise {A} e.

#[global] Instance result_ret : MRet result := fun A a => Ok a.

#[global] Instance result_bind : MBind result := fun A B k m =>
  match m with
  | Ok a => k a
  | Raise e => Raise e
  end.

(** [for x in l: body(x)] where the body may raise. *)
Fixpoint for_each {A : Type} (body : A -> result unit) (l : list A) : result unit :=
  match l with
  | [] => Ok tt
  | x :: rest => body x ≫= fun _ => for_each body rest
  end.

(** ** Python values and Django model instances *)

Inductive value : Type :=
| VNone
| VBool (b : bool)
| VInt (z : Z)
| VStr (s : string)
| VObj (o : instance)
with instance : Type :=
| Instance (pk : value) (text : string) (attrs : list (string * attr))
with attr : Type :=
| AttrValue (v : value)
| AttrDoesNotExist.

Definition inst_pk (o : instance) : value :=
  match o with Instance pk _ _ => pk end.

Definition inst_text (o : instance) : string :=
  match o with Instance _ text _ => text end.

Definition inst_attrs (o : instance) : list (string * attr) :=
  match o with Instance _ _ attrs => attrs end.

Definition is_None (v : value) : bool :=
  match v with VNone => true | _ => false end.

Fixpoint assoc {A : Type} (name : string) (l : list (string * A)) : option A :=
  match l with
  | [] => None
  | (k, a) :: rest => if String.eqb k name then Some a else assoc name rest
  end.

(** [getattr(instance, name)] on a model instance or on [None].  A plain
    attribute yields its value, a relation descriptor without a related row
    raises [ObjectDoesNotExist], and an undefined name raises
    [AttributeError]; [None] has none of the (dunder-free) names used as
    Django field names. *)
Definition getattr (o : option instance) (name : string) : result value :=
  match o with
  | None => Raise AttributeError
  | Some i =>
      match assoc name (inst_attrs i) with
      | Some (AttrValue v) => Ok v
      | Some AttrDoesNotExist => Raise ObjectDoesNotExist
      | None => Raise AttributeError
      end
  end.

(** ** Python string methods *)

(** [s.lstrip(chars)] and [s.rstrip(chars)], with [chars] given as a
    predicate on characters. *)
Fixpoint lstrip (p : ascii -> bool) (s : string) : string :=
  match s with
  | EmptyString => EmptyString
  | String a rest => if p a then lstrip p rest else s
  end.

Fixpoint rstrip (p : ascii -> bool) (s : string) : string :=
  match s with
  | EmptyString => EmptyString
  | String a rest =>
      match rstrip p rest with
      | EmptyString => if p a then EmptyString else String a EmptyString
      | String b r => String a (String b r)
      end
  end.

Definition strip (p : ascii -> bool) (s : string) : string :=
  rstrip p (lstrip p s).

Definition is_char (c : ascii) : ascii -> bool := Ascii.eqb c.

(** [s.split(sep)] for a one-character separator: never the empty list. *)
Fixpoint split (sep : ascii) (s : string) : list string :=
  match s with
  | EmptyString => [EmptyString]
  | String a rest =>
      if Ascii.eqb a sep then EmptyString :: split sep rest
      else match split sep rest with
           | seg :: segs => String a seg :: segs
           | [] => [String a EmptyString]
           end
  end.

(** [l.pop()], observed through the item it returns. *)
Definition pop {A : Type} (l : list A) : result A :=
  match last l with
  | Some x => Ok x
  | None => Raise IndexError
  end.

(** [''.join(parts)] and [sep.join(parts)]. *)
Definition join (sep : string) (parts : list string) : string :=
  match parts with
  | [] => EmptyString
  | p :: rest => fold_left (fun acc q => acc +:+ sep +:+ q) rest p
  end.

(** ** Hexadecimal digits, as [hexdigest] and [json] print them *)

Definition hex_digit (n : Z) : ascii :=
  match String.get (Z.to_nat n) "0123456789abcdef" with
  | Some c => c
  | None => "0"%char
  end.

Fixpoint hex (width : nat) (n : Z) : string :=
  match width with
  | O => EmptyString
  | S w => hex w (n / 16)%Z +:+ String (hex_digit (n mod 16)%Z) EmptyString
  end.

Definition byte_of (a : ascii) : Z := Z.of_nat (nat_of_ascii a).

(** ** [hashlib.sha1] (FIPS 180-4), on bytes *)

Definition mask32 : Z := 0xFFFFFFFF%Z.

Definition add32 (x y : Z) : Z := Z.land (x + y) mask32.

Definition rotl32 (n x : Z) : Z :=
  Z.land (Z.lor (Z.shiftl x n) (Z.shiftr x (32 - n))) mask32.

Definition not32 (x : Z) : Z := Z.lxor x mask32.

(** Big-endian bytes of [n], [width] of them. *)
Fixpoint be_bytes (width : nat) (n : Z) : list Z :=
  match width with
  | O => []
  | S w => be_bytes w (Z.shiftr n 8) ++ [Z.land n 0xFF]%Z
  end.

Definition sha1_pad (msg : list Z) : list Z :=
  let len := Z.of_nat (length msg) in
  let zeros := Z.to_nat ((55 - len) mod 64)%Z in
  msg ++ [0x80%Z] ++ replicate zeros 0%Z ++ be_bytes 8 (8 * len)%Z.

Fixpoint be_words (bytes : list Z) : list Z :=
  match bytes with
  | a :: b :: c :: d :: rest =>
      Z.lor (Z.shiftl a 24) (Z.lor (Z.shiftl b 16) (Z.lor (Z.shiftl c 8) d))
      :: be_words rest
  | _ => []
  end.

(** The message schedule, most recent word first. *)
Fixpoint sha1_extend (n : nat) (rw : list Z) : list Z :=
  match n with
  | O => rw
  | S n' =>
      let w := rotl32 1 (Z.lxor (Z.lxor (nth 2 rw 0%Z) (nth 7 rw 0%Z))
                                (Z.lxor (nth 13 rw 0%Z) (nth 15 rw 0%Z))) in
      sha1_extend n' (w :: rw)
  end.

Definition sha1_schedule (block : list Z) : list Z :=
  rev (sha1_extend 64 (rev block)).

Record sha1_state : Type := Sha1State
  { h0 : Z; h1 : Z; h2 : Z; h3 : Z; h4 : Z }.

Definition sha1_init : sha1_state :=
  Sha1State 0x67452301 0xEFCDAB89 0x98BADCFE 0x10325476 0xC3D2E1F0.

Definition sha1_f (t : nat) (b c d : Z) : Z :=
  if Nat.ltb t 20 then Z.lor (Z.land b c) (Z.land (not32 b) d)
  else if Nat.ltb t 40 then Z.lxor (Z.lxor b c) d
  else if Nat.ltb t 60 then
    Z.lor (Z.lor (Z.land b c) (Z.land b d)) (Z.land c d)
  else Z.lxor (Z.lxor b c) d.

Definition sha1_k (t : nat) : Z :=
  if Nat.ltb t 20 then 0x5A827999%Z
  else if Nat.ltb t 40 then 0x6ED9EBA1%Z
  else if Nat.ltb t 60 then 0x8F1BBCDC%Z
  else 0xCA62C1D6%Z.

Definition sha1_round (st : sha1_state) (tw : nat * Z) : sha1_state :=
  let '(t, w) := tw in
  let temp :=
    add32 (add32 (add32 (add32 (rotl32 5 (h0 st)) (sha1_f t (h1 st) (h2 st) (h3 st)))
                        (h4 st)) (sha1_k t)) w in
  Sha1State temp (h0 st) (rotl32 30 (h1 st)) (h2 st) (h3 st).

Definition sha1_block (st : sha1_state) (block : list Z) : sha1_state :=
  let ws := sha1_schedule block in
  let r := fold_left sha1_round (combine (seq 0 80) ws) st in
  Sha1State (add32 (h0 st) (h0 r)) (add32 (h1 st) (h1 r)) (add32 (h2 st) (h2 r))
            (add32 (h3 st) (h3 r)) (add32 (h4 st) (h4 r)).

Fixpoint sha1_blocks (n : nat) (st : sha1_state) (ws : list Z) : sha1_state :=
  match n with
  | O => st
  | S n' => sha1_blocks n' (sha1_block st (take 16 ws)) (drop 16 ws)
  end.

Definition sha1 (msg : list Z) : sha1_state :=
  let ws := be_words (sha1_pad msg) in
  sha1_blocks (length ws / 16) sha1_init ws.

Definition bytes_of_string (s : string) : list Z :=
  byte_of <$> list_ascii_of_string s.

(** [hashlib.sha1(data).hexdigest()]. *)
Definition sha1_hexdigest (data : string) : string :=
  let st := sha1 (bytes_of_string data) in
  hex 8 (h0 st) +:+ hex 8 (h1 st) +:+ hex 8 (h2 st) +:+ hex 8 (h3 st)
  +:+ hex 8 (h4 st).

(** ** [json.dumps] with its defaults (ASCII-only output) *)

Definition dquote : string := String "034"%char EmptyString.
Definition backslash : string := String "092"%char EmptyString.
Definition newline : string := String "010"%char EmptyString.

Definition cont (a : ascii) : Z := Z.land (byte_of a) 0x3F.

(** Code points of UTF-8 text; a truncated sequence is passed through. *)
Fixpoint utf8_decode (s : string) : list Z :=
  match s with
  | EmptyString => []
  | String a r =>
      let b := byte_of a in
      if (b <? 0xC0)%Z then b :: utf8_decode r
      else if (b <? 0xE0)%Z then
        match r with
        | String a1 r1 =>
            Z.lor (Z.shiftl (Z.land b 0x1F) 6) (cont a1) :: utf8_decode r1
        | EmptyString => [b]
        end
      else if (b <? 0xF0)%Z then
        match r with
        | String a1 (String a2 r2) =>
            Z.lor (Z.shiftl (Z.land b 0x0F) 12)
                  (Z.lor (Z.shiftl (cont a1) 6) (cont a2)) :: utf8_decode r2
        | _ => [b]
        end
      else
        match r with
        | String a1 (String a2 (String a3 r3)) =>
            Z.lor (Z.shiftl (Z.land b 0x07) 18)
                  (Z.lor (Z.shiftl (cont a1) 12)
                         (Z.lor (Z.shiftl (cont a2) 6) (cont a3)))
            :: utf8_decode r3
        | _ => [b]
        end
  end.

Definition json_escape (cp : Z) : string :=
  if (cp =? 0x22)%Z then backslash +:+ dquote
  else if (cp =? 0x5C)%Z then backslash +:+ backslash
  else if (cp =? 0x0A)%Z then backslash +:+ "n"
  else if (cp =? 0x0D)%Z then backslash +:+ "r"
  else if (cp =? 0x09)%Z then backslash +:+ "t"
  else if (cp =? 0x0C)%Z then backslash +:+ "f"
  else if (cp =? 0x08)%Z then backslash +:+ "b"
  else if ((0x20 <=? cp) && (cp <=? 0x7E))%Z then
    String (ascii_of_nat (Z.to_nat cp)) EmptyString
  else if (cp <? 0x10000)%Z then backslash +:+ "u" +:+ hex 4 cp
  else
    let n := (cp - 0x10000)%Z in
    backslash +:+ "u" +:+ hex 4 (Z.lor 0xD800 (Z.land (Z.shiftr n 10) 0x3FF))
    +:+ backslash +:+ "u" +:+ hex 4 (Z.lor 0xDC00 (Z.land n 0x3FF)).

Definition json_dumps_str (s : string) : string :=
  dquote +:+ join "" (json_escape <$> utf8_decode s) +:+ dquote.

Definition json_dumps_list (items : list string) : string :=
  "[" +:+ join ", " items +:+ "]".

(** A dict literal, keys in the order they are written. *)
Definition json_dumps_dict (items : list (string * string)) : string :=
  "{" +:+ join ", " ((fun kv => json_dumps_str kv.1 +:+ ": " +:+ kv.2) <$> items)
  +:+ "}".

(** ** The builtins of the Python run-time *)

(** The builtins the module calls that are not text methods: [int]. *)
Record Python : Type := MkPython
  { int : string -> result Z }.

(** *** [int] on text, as CPython 3.11 computes it (Unicode 14)

    Every character is first brought to ASCII: a character below 127 is
    kept, a Unicode space becomes a space, a Unicode decimal digit becomes
    its ASCII digit, and anything else makes the text invalid.  The rest is
    an optional run of ASCII whitespace, an optional sign, decimal digits
    that single underscores may separate, and an optional run of ASCII
    whitespace; more than 4300 digits are refused.  Every failure is a
    [ValueError]. *)

Definition is_unicode_space (cp : Z) : bool :=
  ((cp =? 0x85) || (cp =? 0xA0) || (cp =? 0x1680)
   || ((0x2000 <=? cp) && (cp <=? 0x200A))
   || (cp =? 0x2028) || (cp =? 0x2029) || (cp =? 0x202F) || (cp =? 0x205F)
   || (cp =? 0x3000))%Z.

(** The digit zero of every run of ten decimal digits beyond ASCII. *)
Definition decimal_zeros : list Z :=
  [
    0x660; 0x6F0; 0x7C0; 0x966; 0x9E6; 0xA66;
    0xAE6; 0xB66; 0xBE6; 0xC66; 0xCE6; 0xD66;
    0xDE6; 0xE50; 0xED0; 0xF20; 0x1040; 0x1090;
    0x17E0; 0x1810; 0x1946; 0x19D0; 0x1A80; 0x1A90;
    0x1B50; 0x1BB0; 0x1C40; 0x1C50; 0xA620; 0xA8D0;
    0xA900; 0xA9D0; 0xA9F0; 0xAA50; 0xABF0; 0xFF10;
    0x104A0; 0x10D30; 0x11066; 0x110F0; 0x11136; 0x111D0;
    0x112F0; 0x11450; 0x114D0; 0x11650; 0x116C0; 0x11730;
    0x118E0; 0x11950; 0x11C50; 0x11D50; 0x11DA0; 0x16A60;
    0x16AC0; 0x16B50; 0x1D7CE; 0x1D7D8; 0x1D7E2; 0x1D7EC;
    0x1D7F6; 0x1E140; 0x1E2F0; 0x1E950; 0x1FBF0
  ]%Z.

Fixpoint decimal_value_in (zeros : list Z) (cp : Z) : option Z :=
  match zeros with
  | [] => None
  | z :: rest =>
      if ((z <=? cp) && (cp <? z + 10))%Z then Some (cp - z)%Z
      else decimal_value_in rest cp
  end.

Definition to_ascii (cp : Z) : option Z :=
  if (cp <? 127)%Z then Some cp
  else if is_unicode_space cp then Some 0x20%Z
  else (fun d => 0x30 + d)%Z <$> decimal_value_in decimal_zeros cp.

Definition is_ascii_space (c : Z) : bool :=
  ((c =? 0x20) || ((0x09 <=? c) && (c <=? 0x0D)))%Z.

Definition is_ascii_digit (c : Z) : bool :=
  ((0x30 <=? c) && (c <=? 0x39))%Z.

Fixpoint drop_spaces (chars : list Z) : list Z :=
  match chars with
  | [] => []
  | c :: rest => if is_ascii_space c then drop_spaces rest else chars
  end.

(** The digits that follow a digit: the value, the number of digits and
    what is left, which starts at the first character that is neither a
    digit nor an underscore followed by a digit. *)
Fixpoint scan_digits (chars : list Z) (acc : Z) (count : nat)
  : Z * nat * list Z :=
  match chars with
  | [] => (acc, count, [])
  | c :: rest =>
      if is_ascii_digit c then scan_digits rest (10 * acc + (c - 0x30))%Z (S count)
      else if (c =? 0x5F)%Z then
        match rest with
        | d :: rest' =>
            if is_ascii_digit d
            then scan_digits rest' (10 * acc + (d - 0x30))%Z (S count)
            else (acc, count, chars)
        | [] => (acc, count, chars)
        end
      else (acc, count, chars)
  end.

Definition max_str_digits : nat := 4300.

Definition unsigned_int (chars : list Z) : option Z :=
  match chars with
  | [] => None
  | c :: rest =>
      if is_ascii_digit c then
        let '(n, count, remaining) := scan_digits rest (c - 0x30)%Z 1 in
        match drop_spaces remaining with
        | [] => if Nat.leb count max_str_digits then Some n else None
        | _ :: _ => None
        end
      else None
  end.

Definition signed_int (chars : list Z) : option Z :=
  match drop_spaces chars with
  | [] => None
  | c :: rest =>
      if (c =? 0x2D)%Z then Z.opp <$> unsigned_int rest
      else if (c =? 0x2B)%Z then unsigned_int rest
      else unsigned_int (c :: rest)
  end.

Definition parse_int (s : string) : option Z :=
  mapM to_ascii (utf8_decode s) ≫= signed_int.

Definition int_of_text (s : string) : result Z :=
  match parse_int s with
  | Some n => Ok n
  | None => Raise ValueError
  end.

(** The run-time of CPython. *)
Definition cpython : Python := {| int := int_of_text |}.

(** [smart_unicode(o)]: the instance's text representation. *)
Definition smart_unicode (o : instance) : string := inst_text o.

(** [itertools.chain], observed through the sequence of items it yields. *)
Definition chain {A : Type} (iterables : list (list A)) : list A :=
  concat iterables.

(** ** flexselect: the choice builder *)

Definition choice : Type := value * string.

Definition EMPTY_CHOICE : choice := (VStr "", "---------").

Definition choices_from_queryset (queryset : list instance) : list choice :=
  chain [ [EMPTY_CHOICE];
          (fun o => (inst_pk o, smart_unicode o)) <$> queryset ].

(** ** The Django objects the module works on *)

(** A form field: [to_python(raw)] returns the coerced value or raises,
    [ValidationError] when the input is invalid. *)
Record FormField : Type := MkFormField
  { to_python : string -> result value }.

(** A field of [model._meta.fields]: its name and what [formfield()]
    returns, which is [None] for a field without a form representation
    (an [AutoField]). *)
Record Field : Type := MkField
  { name : string;
    formfield : option FormField }.

(** [f.formfield().to_python(raw)]: on [None] the attribute lookup raises
    [AttributeError]. *)
Definition coerce (f : Field) (raw : string) : result value :=
  match formfield f with
  | None => Raise AttributeError
  | Some form_field => to_python form_field raw
  end.

(** A model class: its declared fields and its constructor
    (called with [values] as keyword arguments). *)
Record Model : Type := MkModel
  { meta_fields : list Field;
    construct : gmap string value -> instance }.

(** The field the widget is attached to: [base_field.name] and
    [base_field.model]. *)
Record BaseField : Type := MkBaseField
  { bf_name : string;
    bf_model : Model }.

(** [request.method], [request.META['PATH_INFO']] and the pairs of
    [request.POST.items()]. *)
Record Request : Type := MkRequest
  { method : string;
    PATH_INFO : string;
    POST : list (string * string) }.

(** [modeladmin.__class__.__name__] and [modeladmin.get_object]. *)
Record ModelAdmin : Type := MkModelAdmin
  { class_name : string;
    get_object : Request -> Z -> result (option instance) }.

(** The classes of the module and the two Django widgets they mix in. *)
Inductive pyclass : Type :=
| FlexBaseWidget
| FlexSelectWidget
| FlexSelectMultipleWidget
| Select
| SelectMultiple.

#[global] Instance pyclass_eq_dec : EqDecision pyclass.
Proof. solve_decision. Defined.

(** A widget class as a project writes it: a subclass of [parent] that sets
    the attributes and methods "that must be implemented". *)
Record WidgetClass : Type := MkWidgetClass
  { parent : pyclass;
    wc_unique_name : option string;
    wc_trigger_fields : list string;
    wc_details : value -> option instance -> result string;
    wc_queryset : option instance -> result (list instance);
    wc_empty_choices_text : option instance -> result string }.

(** The attributes as [FlexBaseWidget] itself declares them. *)
Definition base_widget_class (p : pyclass) : WidgetClass :=
  {| parent := p;
     wc_unique_name := None;
     wc_trigger_fields := [];
     wc_details := fun _ _ => Raise NotImplementedError;
     wc_queryset := fun _ => Raise NotImplementedError;
     wc_empty_choices_text := fun _ => Raise NotImplementedError |}.

(** A widget object: its class and the attributes [__init__] and [render]
    set on it. *)
Record Widget : Type := MkWidget
  { w_class : WidgetClass;
    choice_function : option (option instance -> result (list choice));
    base_field : BaseField;
    modeladmin : ModelAdmin;
    request : Request;
    hashed_name : string;
    choices : list choice }.

Definition unique_name (w : Widget) : option string := wc_unique_name (w_class w).
Definition trigger_fields (w : Widget) : list string := wc_trigger_fields (w_class w).
Definition details (w : Widget) := wc_details (w_class w).
Definition queryset (w : Widget) := wc_queryset (w_class w).
Definition empty_choices_text (w : Widget) := wc_empty_choices_text (w_class w).

(** [settings.SECRET_KEY], the URL configuration behind [reverse], and the
    renderer of the underlying Django selection control. *)
Record Django : Type := MkDjango
  { SECRET_KEY : string;
    reverse : string -> result string;
    select_render :
      pyclass -> list choice -> string -> value -> option (list (string * string))
      -> result string }.

(** ** flexselect: choices and details from an instance *)

(** The exceptions named by [except (ObjectDoesNotExist, AttributeError)]. *)
Definition is_missing (e : exn) : bool :=
  match e with
  | ObjectDoesNotExist | AttributeError => true
  | _ => false
  end.

(** [for trigger_field in widget.trigger_fields: getattr(instance, trigger_field)] *)
Definition touch_trigger_fields (inst : option instance) (widget : Widget) : result unit :=
  for_each (fun trigger_field => getattr inst trigger_field ≫= fun _ => Ok tt)
           (trigger_fields widget).

Definition choices_from_instance (inst : option instance) (widget : Widget)
  : result (list choice) :=
  match touch_trigger_fields inst widget with
  | Raise e =>
      if is_missing e
      then empty_choices_text widget inst ≫= fun text => Ok [(VStr "", text)]
      else Raise e
  | Ok _ =>
      queryset widget inst ≫= fun qs => Ok (choices_from_queryset qs)
  end.

Definition details_from_instance (inst : option instance) (widget : Widget)
  : result string :=
  match touch_trigger_fields inst widget ≫= fun _ =>
        getattr inst (bf_name (base_field widget)) with
  | Raise e => if is_missing e then Ok "" else Raise e
  | Ok related_instance => details widget related_instance inst
  end.

(** ** flexselect: an instance from a POST request *)

(** [dict(pairs)]: a later pair with the same key replaces an earlier one. *)
Definition dict_of_items (pairs : list (string * string)) : gmap string string :=
  fold_left (fun d kv => <[kv.1 := kv.2]> d) pairs ∅.

(** One turn of the loop over [widget.base_field.model._meta.fields]:
    only [ValidationError] is caught. *)
Definition collect_value (items : gmap string string)
    (values : gmap string value) (f : Field) : result (gmap string value) :=
  match items !! name f with
  | Some raw =>
      match coerce f raw with
      | Ok v => Ok (if is_None v then values else <[name f := v]> values)
      | Raise ValidationError => Ok values
      | Raise e => Raise e
      end
  | None => Ok values
  end.

(** The loop: the first exception that is not caught ends it. *)
Fixpoint collect_values (items : gmap string string) (fields : list Field)
    (values : gmap string value) : result (gmap string value) :=
  match fields with
  | [] => Ok values
  | f :: rest => collect_value items values f ≫= collect_values items rest
  end.

(** The dictionary [values] when the loop ends. *)
Definition request_values (req : Request) (widget : Widget)
  : result (gmap string value) :=
  let items := dict_of_items (POST req) in
  collect_values items (meta_fields (bf_model (base_field widget))) ∅.

Definition instance_from_request (req : Request) (widget : Widget)
  : result instance :=
  request_values req widget ≫= fun values =>
  Ok (construct (bf_model (base_field widget)) values).

(** ** flexselect: the widget's methods *)

Definition salted_string (env : Django) (self : Widget) : string :=
  join "" [ SECRET_KEY env; bf_name (base_field self); class_name (modeladmin self) ].

Definition _hashed_name (env : Django) (self : Widget) : string :=
  match unique_name self with
  | Some n => n
  | None => "_" +:+ sha1_hexdigest (salted_string env self)
  end.

Definition _get_instance (py : Python) (self : Widget) : result (option instance) :=
  if String.eqb (method (request self)) "POST"
  then instance_from_request (request self) self ≫= fun inst => Ok (Some inst)
  else
    let path := strip (is_char "/") (PATH_INFO (request self)) in
    let fetched : result (option instance) :=
      pop (split "/" path) ≫= fun segment =>
      int py segment ≫= fun object_id =>
      get_object (modeladmin self) (request self) object_id in
    match fetched with
    | Raise ValueError => Ok None
    | r => r
    end.

Definition _build_js (env : Django) (self : Widget) : result string :=
  reverse env "flexselect_field_changed" ≫= fun url =>
  Ok (newline
      +:+ "        <script>" +:+ newline
      +:+ "            var flexselect = flexselect || {};" +:+ newline
      +:+ "            flexselect.fields = flexselect.fields || {};" +:+ newline
      +:+ "            flexselect.url = " +:+ url +:+ ";" +:+ newline
      +:+ "            flexselect.fields." +:+ hashed_name self +:+ " = "
      +:+ json_dumps_dict
            [ ("base_field", json_dumps_str (bf_name (base_field self)));
              ("trigger_fields",
               json_dumps_list (json_dumps_str <$> trigger_fields self)) ]
      +:+ ";" +:+ newline
      +:+ "        </script>").

(** *** Classes: method resolution order and [super] *)

Definition mro (c : pyclass) : list pyclass :=
  match c with
  | FlexBaseWidget => [FlexBaseWidget]
  | FlexSelectWidget => [FlexSelectWidget; FlexBaseWidget; Select]
  | FlexSelectMultipleWidget =>
      [FlexSelectMultipleWidget; FlexBaseWidget; SelectMultiple; Select]
  | Select => [Select]
  | SelectMultiple => [SelectMultiple; Select]
  end.

Fixpoint after (c : pyclass) (l : list pyclass) : list pyclass :=
  match l with
  | [] => []
  | c' :: rest => if decide (c' = c) then rest else after c rest
  end.

Inductive pyobj : Type :=
| PyClass (c : pyclass)
| PyWidget (w : Widget).

(** [super(type_, obj)]: the classes that follow [type_] in the resolution
    order of [obj]; the first argument must be a class. *)
Definition super (type_ obj : pyobj) : result (list pyclass) :=
  match type_ with
  | PyWidget _ => Raise TypeError
  | PyClass c =>
      match obj with
      | PyWidget w => Ok (after c (mro (parent (w_class w))))
      | PyClass c' => Ok (after c (mro c'))
      end
  end.

(** The method [render] found through a [super] proxy. *)
Definition super_render (env : Django) (self : Widget) (proxy : list pyclass)
    (name_ : string) (val : value) (attrs : option (list (string * string)))
  : result string :=
  match proxy with
  | c :: _ => select_render env c (choices self) name_ val attrs
  | [] => Raise AttributeError
  end.

(** [mark_safe] only tags the text. *)
Definition mark_safe (s : string) : string := s.

Definition with_choices (self : Widget) (cs : list choice) : Widget :=
  {| w_class := w_class self;
     choice_function := choice_function self;
     base_field := base_field self;
     modeladmin := modeladmin self;
     request := request self;
     hashed_name := hashed_name self;
     choices := cs |}.

(** The tail of [render] once [self.choices] is set; the list passed to
    [''.join] is built from left to right.  [type_] and [obj] are the two
    arguments given to [super]. *)
Definition render_parts (env : Django) (self : Widget) (type_ obj : pyobj)
    (inst : option instance)
    (name_ : string) (val : value) (attrs : option (list (string * string)))
  : result string :=
  super type_ obj ≫= fun proxy =>
  super_render env self proxy name_ val attrs ≫= fun control =>
  _build_js env self ≫= fun js =>
  details_from_instance inst self ≫= fun det =>
  Ok (mark_safe (join "" [ control; js;
                           "<span class=" +:+ dquote +:+ "flexselect_details"
                             +:+ dquote +:+ ">";
                           det; "</span>" ])).

Definition compute_choices (self : Widget) (inst : option instance)
  : result (list choice) :=
  match choice_function self with
  | Some f => f inst
  | None => choices_from_instance inst self
  end.

(** [render] returns the widget as it leaves it and the outcome. *)
Definition render_with (py : Python) (env : Django) (self : Widget)
    (type_ obj : Widget -> pyobj)
    (name_ : string) (val : value) (attrs : option (list (string * string)))
  : Widget * result string :=
  match _get_instance py self with
  | Raise e => (self, Raise e)
  | Ok inst =>
      match compute_choices self inst with
      | Raise e => (self, Raise e)
      | Ok cs =>
          let self := with_choices self cs in
          (self, render_parts env self (type_ self) (obj self) inst name_ val attrs)
      end
  end.

(** [FlexBaseWidget.render], with [super(self, FlexBaseWidget)] as written. *)
Definition render (py : Python) (env : Django) (self : Widget)
    (name_ : string) (val : value) (attrs : option (list (string * string)))
  : Widget * result string :=
  render_with py env self (fun self => PyWidget self)
              (fun _ => PyClass FlexBaseWidget)
              name_ val attrs.

(** The render contract as the specification words it: the same steps, the
    base control delegated to the underlying selection control, that is
    [super(FlexBaseWidget, self)]. *)
Definition render_spec (py : Python) (env : Django) (self : Widget)
    (name_ : string) (val : value) (attrs : option (list (string * string)))
  : Widget * result string :=
  render_with py env self (fun _ => PyClass FlexBaseWidget)
              (fun self => PyWidget self)
              name_ val attrs.

(** ** The registry: class attributes, dictionaries and widget objects *)

(** The dictionary object made by [instances = {}] in the body of
    [FlexBaseWidget]. *)
Definition instances_loc : positive := 1%positive.

(** The name [instances] in each class body: only [FlexBaseWidget] binds it. *)
Definition class_dict_instances (c : pyclass) : option positive :=
  match c with
  | FlexBaseWidget => Some instances_loc
  | _ => None
  end.

(** [c.instances]: the binding in the first class of the resolution order
    that has one. *)
Definition class_instances (c : pyclass) : option positive :=
  head (omap class_dict_instances (mro c)).

(** The process: dictionaries by location, widget objects by address. *)
Record World : Type := MkWorld
  { dicts : gmap positive (gmap string nat);
    heap : gmap nat Widget;
    next_addr : nat }.

(** The process once the module is imported. *)
Definition initial_world : World :=
  {| dicts := {[ instances_loc := ∅ ]}; heap := ∅; next_addr := 0 |}.

(** [d[key] = a] on the dictionary at [l]. *)
Definition setitem (l : positive) (key : string) (a : nat)
    (ds : gmap positive (gmap string nat)) : gmap positive (gmap string nat) :=
  <[ l := <[ key := a ]> (ds !!! l) ]> ds.

(** The mapping read as [c.instances]. *)
Definition registry (c : pyclass) (wd : World) : gmap string nat :=
  match class_instances c with
  | Some l => dicts wd !!! l
  | None => ∅
  end.

(** The object once [__init__] has run: the four attributes, the hashed
    name, and the empty [choices] left by the underlying [__init__]. *)
Definition new_widget (env : Django) (cls : WidgetClass) (base_field_ : BaseField)
    (modeladmin_ : ModelAdmin) (request_ : Request)
    (choice_function_ : option (option instance -> result (list choice))) : Widget :=
  let self :=
    {| w_class := cls; choice_function := choice_function_;
       base_field := base_field_; modeladmin := modeladmin_;
       request := request_; hashed_name := ""; choices := [] |} in
  {| w_class := cls; choice_function := choice_function_;
     base_field := base_field_; modeladmin := modeladmin_;
     request := request_; hashed_name := _hashed_name env self; choices := [] |}.

(** [FlexBaseWidget.__init__] on a freshly allocated object; it returns the
    object's address. *)
Definition __init__ (env : Django) (wd : World) (cls : WidgetClass)
    (base_field_ : BaseField) (modeladmin_ : ModelAdmin) (request_ : Request)
    (choice_function_ : option (option instance -> result (list choice)))
  : World * result nat :=
  let self := new_widget env cls base_field_ modeladmin_ request_ choice_function_ in
  let a := next_addr wd in
  match class_instances FlexSelectWidget with
  | None => (wd, Raise AttributeError)
  | Some l =>
      let wd' :=
        {| dicts := setitem l (hashed_name self) a (dicts wd);
           heap := <[ a := self ]> (heap wd);
           next_addr := S a |} in
      match super (PyClass FlexBaseWidget) (PyWidget self) with
      | Ok _ => (wd', Ok a)
      | Raise e => (wd', Raise e)
      end
  end.

(** [render] called on the object at address [a]. *)
Definition call_render (py : Python) (env : Django) (wd : World) (a : nat)
    (name_ : string) (val : value) (attrs : option (list (string * string)))
  : World * result string :=
  match heap wd !! a with
  | None => (wd, Raise AttributeError)
  | Some self =>
      let '(self', r) := render py env self name_ val attrs in
      ({| dicts := dicts wd; heap := <[ a := self' ]> (heap wd);
          next_addr := next_addr wd |}, r)
  end.

(** The functions and methods that take no part in the process state. *)
Inductive pure_function : Type :=
| Fn_choices_from_queryset
| Fn_choices_from_instance
| Fn_details_from_instance
| Fn_instance_from_request
| Fn_hashed_name
| Fn_get_instance
| Fn_build_js.

(** The operations of the module. *)
Inductive op : Type :=
| OpInit (cls : WidgetClass) (base_field_ : BaseField) (modeladmin_ : ModelAdmin)
         (request_ : Request)
         (choice_function_ : option (option instance -> result (list choice)))
| OpRender (a : nat) (name_ : string) (val : value)
           (attrs : option (list (string * string)))
| OpPure (f : pure_function).

Definition exec (py : Python) (env : Django) (wd : World) (o : op) : World :=
  match o with
  | OpInit cls bf ma req cf => (__init__ env wd cls bf ma req cf).1
  | OpRender a n v attrs => (call_render py env wd a n v attrs).1
  | OpPure _ => wd
  end.

Definition run (py : Python) (env : Django) (ops : list op) (wd : World) : World :=
  fold_left (exec py env) ops wd.

(** The address of the widget most recently constructed under the
    identifier [key] by [ops], the first of which runs when [next] is the
    next free address; [acc] when there is none. *)
Fixpoint last_constructed (env : Django) (key : string) (ops : list op)
    (next : nat) (acc : option nat) : option nat :=
  match ops with
  | [] => acc
  | OpInit cls bf ma req cf :: rest =>
      last_constructed env key rest (S next)
        (if String.eqb (hashed_name (new_widget env cls bf ma req cf)) key
         then Some next else acc)
  | _ :: rest => last_constructed env key rest next acc
  end.

(** A process is well formed when every object lies below the next free
    address and every registry entry leads to a widget object that carries
    the entry's key as its hashed name. *)
Definition well_formed (wd : World) : Prop :=
  (forall a, is_Some (heap wd !! a) -> a < next_addr wd)
  /\ (forall key a,
        registry FlexBaseWidget wd !! key = Some a ->
        exists w, heap wd !! a = Some w /\ hashed_name w = key).

(** ** The specification's wording, for comparison *)

(** The trailing segment of a URL path. *)
Definition trailing_segment (path : string) : string :=
  default "" (last (split "/" (strip (is_char "/") path))).

(** "The successfully coerced subset": every declared field that appears in
    the submission and whose coercion succeeds. *)
Definition collect_coerced (items : gmap string string)
    (values : gmap string value) (f : Field) : gmap string value :=
  match items !! name f with
  | Some raw =>
      match coerce f raw with
      | Ok v => <[name f := v]> values
      | Raise _ => values
      end
  | None => values
  end.

Definition coerced_subset (req : Request) (widget : Widget) : gmap string value :=
  fold_left (collect_coerced (dict_of_items (POST req)))
            (meta_fields (bf_model (base_field widget))) ∅.

(** A declared field is coercible in a submission when, if it is submitted,
    its coercion returns or raises [ValidationError]. *)
Definition coercible (items : gmap string string) (f : Field) : Prop :=
  forall raw e,
    items !! name f = Some raw -> coerce f raw = Raise e -> e = ValidationError.

(** What one declared field contributes to [values]: its coerced value when
    it is submitted and the coercion returns a value other than [None]. *)
Definition contribution (items : gmap string string) (f : Field) : option value :=
  match items !! name f with
  | Some raw =>
      match coerce f raw with
      | Ok v => if is_None v then None else Some v
      | Raise _ => None
      end
  | None => None
  end.

(** The turn of the loop of a coercible field. *)
Definition store_value (items : gmap string string)
    (values : gmap string value) (f : Field) : gmap string value :=
  match contribution items f with
  | Some v => <[name f := v]> values
  | None => values
  end.

(** The two outcomes agree: the same value, or an exception on each side. *)
Definition same_outcome {A : Type} (r1 r2 : result A) : Prop :=
  match r1, r2 with
  | Ok a1, Ok a2 => a1 = a2
  | Raise _, Raise _ => True
  | _, _ => False
  end.

(** ** flexselect: the module settings and the scripts of the widget *)






(** ** Vocabulary for the statements *)

(** A lower-case hexadecimal digit. *)
Definition is_hex_digit (a : ascii) : bool :=
  let n := nat_of_ascii a in
  (Nat.leb 48 n && Nat.leb n 57) || (Nat.leb 97 n && Nat.leb n 102).

Fixpoint all_hex (s : string) : bool :=
  match s with
  | EmptyString => true
  | String a rest => is_hex_digit a && all_hex rest
  end.

(** The character [c] does not occur in [s]. *)
Fixpoint free_of (c : ascii) (s : string) : bool :=
  match s with
  | EmptyString => true
  | String a rest => negb (Ascii.eqb a c) && free_of c rest
  end.

(** The identifiers under which the constructions of [ops] register. *)
Definition constructed (env : Django) (ops : list op) : list string :=
  omap (fun o =>
          match o with
          | OpInit cls bf ma req cf =>
              Some (hashed_name (new_widget env cls bf ma req cf))
          | _ => None
          end) ops.

(** The attribute [name_] can be read on [inst]. *)
Definition readable (inst : option instance) (name_ : string) : Prop :=
  exists v, getattr inst name_ = Ok v.

(** ** A sample site, used to run the definitions *)

Module Sample.

(** An integer form field: empty input is [None], a decimal literal is its
    value, anything else is invalid. *)
Definition integer_to_python (raw : string) : result value :=
  match raw with
  | EmptyString => Ok VNone
  | String _ _ =>
      match parse_int raw with
      | Some n => Ok (VInt n)
      | None => Raise ValidationError
      end
  end.

Definition char_to_python (raw : string) : result value := Ok (VStr raw).

(** The automatic primary key has no form field. *)
Definition id_field : Field := MkField "id" None.
Definition client_field : Field :=
  MkField "client" (Some (MkFormField integer_to_python)).
Definition age_field : Field :=
  MkField "age" (Some (MkFormField integer_to_python)).
Definition title_field : Field :=
  MkField "title" (Some (MkFormField char_to_python)).

(** The constructor gives the instance every declared field: the keyword
    argument when there is one, the field's default otherwise ([18] for
    [age], the empty text for [title], [None] for the others). *)
Definition field_attr (values : gmap string value) (name_ : string) (dflt : value)
  : string * attr :=
  (name_, AttrValue (default dflt (values !! name_))).

Definition case_model : Model :=
  {| meta_fields := [id_field; client_field; age_field; title_field];
     construct := fun values =>
       Instance (default VNone (values !! "id")) "Case object"
                [ field_attr values "id" VNone;
                  field_attr values "client" VNone;
                  field_attr values "age" (VInt 18);
                  field_attr values "title" (VStr "") ] |}.

Definition contact_field : BaseField := MkBaseField "contact" case_model.

Definition alice : instance := Instance (VInt 1) "A" [].
Definition bob : instance := Instance (VInt 2) "B" [].

(** A saved case: both the client and the contact are set. *)
Definition saved_case : instance :=
  Instance (VInt 12) "Case 12"
           [("client", AttrValue (VInt 7)); ("contact", AttrValue (VObj alice))].

Definition get_request (path : string) : Request := MkRequest "GET" path [].
Definition post_request (pairs : list (string * string)) : Request :=
  MkRequest "POST" "/admin/cases/case/add/" pairs.

Definition case_admin : ModelAdmin :=
  {| class_name := "CaseAdmin";
     get_object := fun _ object_id =>
       if (object_id =? 12)%Z then Ok (Some saved_case) else Ok None |}.

Definition contact_details (related : value) (inst : option instance)
  : result string :=
  match related with
  | VObj o => Ok ("<div>" +:+ inst_text o +:+ "</div>")
  | _ => Ok ""
  end.

(** A widget class that depends on the [client] field. *)
Definition ContactWidget : WidgetClass :=
  {| parent := FlexSelectWidget;
     wc_unique_name := None;
     wc_trigger_fields := ["client"];
     wc_details := contact_details;
     wc_queryset := fun _ => Ok [alice; bob];
     wc_empty_choices_text := fun _ => Ok "Please update the client field" |}.

(** The same hooks, with the [trigger_fields] the base class declares. *)
Definition PlainWidget : WidgetClass :=
  {| parent := FlexSelectWidget;
     wc_unique_name := None;
     wc_trigger_fields := [];
     wc_details := contact_details;
     wc_queryset := fun _ => Ok [alice; bob];
     wc_empty_choices_text := fun _ => Ok "Please update the client field" |}.

Definition NamedWidget : WidgetClass :=
  {| parent := FlexSelectMultipleWidget;
     wc_unique_name := Some "contact_picker";
     wc_trigger_fields := ["client"];
     wc_details := contact_details;
     wc_queryset := fun _ => Ok [alice; bob];
     wc_empty_choices_text := fun _ => Ok "Please update the client field" |}.

Definition option_markup (c : choice) : string :=
  "<option>" +:+ c.2 +:+ "</option>".

Definition site : Django :=
  {| SECRET_KEY := "s3cr3t";
     reverse := fun view =>
       if String.eqb view "flexselect_field_changed"
       then Ok "/flexselect/field_changed" else Raise NoReverseMatch;
     select_render := fun _ cs name_ _ _ =>
       Ok ("<select name=" +:+ dquote +:+ name_ +:+ dquote +:+ ">"
           +:+ join "" (option_markup <$> cs) +:+ "</select>") |}.

Definition widget_on (cls : WidgetClass) (req : Request) : Widget :=
  new_widget site cls contact_field case_admin req None.

Definition python : Python := cpython.

End Sample.

(** Further objects of the sample site. *)
Module Cases.

(** A case just created in memory: no attribute is set. *)
Definition blank_case : instance := Instance VNone "Case object" [].

(** A case whose client is set while the related contact row is gone. *)
Definition orphan_case : instance :=
  Instance (VInt 13) "Case 13"
           [("client", AttrValue (VInt 7)); ("contact", AttrDoesNotExist)].

(** The case model with its fields declared in another order. *)
Definition reordered_model : Model :=
  {| meta_fields := [Sample.client_field; Sample.age_field; Sample.title_field;
                     Sample.id_field];
     construct := construct Sample.case_model |}.

Definition reordered_widget : Widget :=
  new_widget Sample.site Sample.ContactWidget
             (MkBaseField "contact" reordered_model) Sample.case_admin
             (Sample.post_request []) None.

(** A submission as the admin form sends it, with its CSRF token. *)
Definition submitted : list (string * string) :=
  [("csrfmiddlewaretoken", "x9"); ("client", "7"); ("title", "t")].

End Cases.

(** * Theorems *)

(** ** The hash and the helpers agree with their reference values *)

Example sha1_empty :
  sha1_hexdigest "" = "da39a3ee5e6b4b0d3255bfef95601890afd80709".
Proof. vm_compute. reflexivity. Qed.

Example sha1_abc :
  sha1_hexdigest "abc" = "a9993e364706816aba3e25717850c26c9cd0d89d".
Proof. vm_compute. reflexivity. Qed.

Example sha1_two_blocks :
  sha1_hexdigest
    "The quick brown fox jumps over the lazy dog, and then some more text to span two blocks"
  = "b8a455ddf3f91dbe81747198fdf65daf3227500a".
Proof. vm_compute. reflexivity. Qed.

Example trailing_segment_of_change_page :
  trailing_segment "/admin/cases/case/12/" = "12"
  /\ trailing_segment "/admin/cases/case/add/" = "add"
  /\ trailing_segment "" = "".
Proof. repeat split. Qed.

Example int_accepts_and_rejects :
  int_of_text " -12 " = Ok (-12)%Z /\ int_of_text "+7" = Ok 7%Z
  /\ int_of_text "1_2" = Ok 12%Z /\ int_of_text "0012" = Ok 12%Z
  /\ int_of_text "add" = Raise ValueError /\ int_of_text "" = Raise ValueError
  /\ int_of_text "1 2" = Raise ValueError /\ int_of_text "1__2" = Raise ValueError
  /\ int_of_text "_1" = Raise ValueError /\ int_of_text "1_" = Raise ValueError.
Proof. repeat split. Qed.

Example json_dumps_escapes :
  json_dumps_str ("a" +:+ dquote +:+ "b" +:+ newline)
  = dquote +:+ "a" +:+ backslash +:+ dquote +:+ "b" +:+ backslash +:+ "n" +:+ dquote
  /\ json_dumps_str (String (ascii_of_nat 195) (String (ascii_of_nat 169) ""))
     = dquote +:+ backslash +:+ "u00e9" +:+ dquote
  /\ json_dumps_list (json_dumps_str <$> ["a"; "b"])
     = "[" +:+ dquote +:+ "a" +:+ dquote +:+ ", " +:+ dquote +:+ "b" +:+ dquote +:+ "]".
Proof. repeat split. Qed.

(** ** The choice builder *)

(** C2: for every queryset, [choices_from_queryset] yields the sentinel pair
    [('', '---------')] first, then exactly one [(pk, label)] pair per record,
    in the queryset's order; the empty queryset yields the sentinel alone. *)
Theorem C2_choices_from_queryset_shape :
  forall queryset : list instance,
    choices_from_queryset queryset !! 0%nat = Some (VStr "", "---------")
    /\ length (choices_from_queryset queryset) = S (length queryset)
    /\ (forall (i : nat),
          choices_from_queryset queryset !! S i
          = (fun o => (inst_pk o, smart_unicode o)) <$> queryset !! i)
    /\ choices_from_queryset [] = [(VStr "", "---------")].
Proof.
  intros queryset. unfold choices_from_queryset, chain. cbn [concat].
  rewrite app_nil_r. cbn [app].
  split; [reflexivity|].
  split; [cbn [length]; by rewrite length_fmap|].
  split; [|reflexivity].
  intros i. rewrite <- list_lookup_fmap. reflexivity.
Qed.

Example choices_of_two_records :
  choices_from_queryset [Sample.alice; Sample.bob]
  = [(VStr "", "---------"); (VInt 1, "A"); (VInt 2, "B")].
Proof. reflexivity. Qed.

(** ** Graceful degradation of choices and details *)

Section Degradation.

Variable inst : option instance.
Variable widget : Widget.

Lemma getattr_raises_missing field e :
  getattr inst field = Raise e -> is_missing e = true.
Proof.
  unfold getattr. destruct inst as [i|]; [|by intros [= <-]].
  destruct (assoc field (inst_attrs i)) as [[v|]|]; by intros [= <-].
Qed.

Lemma for_each_getattr_raises fields e :
  for_each (fun f => getattr inst f ≫= fun _ => Ok tt) fields = Raise e ->
  is_missing e = true.
Proof.
  induction fields as [|f fields IH]; cbn; [discriminate|].
  destruct (getattr inst f) as [v|e'] eqn:Hf; cbn.
  - exact IH.
  - intros [= <-]. by eapply getattr_raises_missing.
Qed.

Lemma for_each_getattr_missing fields f e :
  f ∈ fields -> getattr inst f = Raise e ->
  exists e', for_each (fun f => getattr inst f ≫= fun _ => Ok tt) fields = Raise e'.
Proof.
  intros Hin Hf. induction fields as [|g fields IH]; [by apply elem_of_nil in Hin|].
  cbn. destruct (getattr inst g) as [v|e'] eqn:Hg; cbn; [|by eexists].
  apply elem_of_cons in Hin as [->|Hin]; [congruence|by apply IH].
Qed.

(** Some trigger field cannot be read: the empty-state choice. *)
Lemma choices_from_instance_degrades f e :
  f ∈ trigger_fields widget -> getattr inst f = Raise e ->
  choices_from_instance inst widget
  = empty_choices_text widget inst ≫= fun text => Ok [(VStr "", text)].
Proof.
  intros Hin Hf. unfold choices_from_instance, touch_trigger_fields.
  destruct (for_each_getattr_missing _ _ _ Hin Hf) as [e' He']. rewrite He'.
  by rewrite (for_each_getattr_raises _ _ He').
Qed.

Lemma details_from_instance_degrades f e :
  f ∈ trigger_fields widget -> getattr inst f = Raise e ->
  details_from_instance inst widget = Ok "".
Proof.
  intros Hin Hf. unfold details_from_instance, touch_trigger_fields.
  destruct (for_each_getattr_missing _ _ _ Hin Hf) as [e' He']. rewrite He'. cbn.
  by rewrite (for_each_getattr_raises _ _ He').
Qed.

(** With no trigger field the loop reads nothing. *)
Lemma choices_from_instance_no_trigger :
  trigger_fields widget = [] ->
  choices_from_instance inst widget
  = queryset widget inst ≫= fun qs => Ok (choices_from_queryset qs).
Proof.
  intros Hnil. unfold choices_from_instance, touch_trigger_fields.
  by rewrite Hnil.
Qed.

End Degradation.

(** Without an instance, details are empty whatever the trigger fields. *)
Lemma details_from_instance_None widget :
  details_from_instance None widget = Ok "".
Proof.
  unfold details_from_instance, touch_trigger_fields.
  destruct (trigger_fields widget) as [|f fields]; reflexivity.
Qed.

(** Without an instance, a widget with a trigger field offers the
    empty-state choice. *)
Lemma choices_from_instance_None widget f fields :
  trigger_fields widget = f :: fields ->
  choices_from_instance None widget
  = empty_choices_text widget None ≫= fun text => Ok [(VStr "", text)].
Proof.
  intros Hf. apply (choices_from_instance_degrades None widget f AttributeError).
  - rewrite Hf. apply elem_of_cons; by left.
  - reflexivity.
Qed.

(** A widget class that implements none of the required hooks fails
    loudly as soon as one is called. *)
Example unimplemented_hooks_raise :
  let widget := new_widget Sample.site (base_widget_class FlexSelectWidget)
                  Sample.contact_field Sample.case_admin
                  (Sample.get_request "/admin/cases/case/add/") None in
  choices_from_instance None widget = Raise NotImplementedError
  /\ choices_from_instance (Some Sample.saved_case) widget = Raise NotImplementedError
  /\ details_from_instance (Some Sample.saved_case) widget = Raise NotImplementedError.
Proof. repeat split. Qed.

(** C3: the claim that without an instance [choices_from_instance] returns
    the single empty-state choice, evaluated on a widget that keeps the
    declared [trigger_fields = []]: the loop reads no attribute, nothing is
    caught, and the choices come from [queryset(None)]; the details are
    empty as claimed. *)
Theorem C3_no_trigger_fields_skips_empty_state :
  let widget := Sample.widget_on Sample.PlainWidget
                  (Sample.get_request "/admin/cases/case/add/") in
  trigger_fields widget = []
  /\ _get_instance Sample.python widget = Ok None
  /\ empty_choices_text widget None = Ok "Please update the client field"
  /\ choices_from_instance None widget
     = Ok [(VStr "", "---------"); (VInt 1, "A"); (VInt 2, "B")]
  /\ details_from_instance None widget = Ok "".
Proof. repeat split. Qed.

(** ** The instance resolver: the path of a request that is not a POST *)

Lemma split_not_nil sep s : split sep s ≠ [].
Proof.
  destruct s as [|a s]; cbn; [done|].
  destruct (Ascii.eqb a sep); [done|]. by destruct (split sep s).
Qed.

(** [path.split('/').pop()] always finds a last segment. *)
Lemma pop_split path :
  pop (split "/" (strip (is_char "/") path)) = Ok (trailing_segment path).
Proof.
  unfold pop, trailing_segment.
  destruct (last (split "/" (strip (is_char "/") path))) as [seg|] eqn:Hlast;
    [reflexivity|].
  apply last_None in Hlast. by apply split_not_nil in Hlast.
Qed.

Lemma _get_instance_from_path py self :
  method (request self) ≠ "POST" ->
  _get_instance py self
  = match int py (trailing_segment (PATH_INFO (request self))) ≫= fun object_id =>
          get_object (modeladmin self) (request self) object_id with
    | Raise ValueError => Ok None
    | r => r
    end.
Proof.
  intros Hmethod. unfold _get_instance.
  apply String.eqb_neq in Hmethod. rewrite Hmethod. cbv zeta.
  rewrite pop_split. cbn.
  destruct (int py (trailing_segment (PATH_INFO (request self)))) as [n|e]; cbn.
  - by destruct (get_object (modeladmin self) (request self) n) as [o|[]].
  - by destruct e.
Qed.

(** C5: on a request that is not a POST, whatever the builtin [int] accepts,
    when [int] refuses the trailing segment of the path (it raises
    [ValueError]) [_get_instance] returns [None] and raises nothing; when
    [int] returns an identifier, the instance is what
    [modeladmin.get_object] gives for that identifier (a [ValueError] out of
    it falls under the same [except] clause). *)
Theorem C5_get_instance_from_path (py : Python) (self : Widget) :
  method (request self) ≠ "POST" ->
  (int py (trailing_segment (PATH_INFO (request self))) = Raise ValueError ->
   _get_instance py self = Ok None)
  /\ (forall object_id : Z,
        int py (trailing_segment (PATH_INFO (request self))) = Ok object_id ->
        _get_instance py self
        = match get_object (modeladmin self) (request self) object_id with
          | Raise ValueError => Ok None
          | r => r
          end).
Proof.
  intros Hmethod. rewrite (_get_instance_from_path py self Hmethod).
  split.
  - by intros ->.
  - by intros object_id ->.
Qed.

Lemma C5_get_instance_from_path_witness :
  _get_instance Sample.python
    (Sample.widget_on Sample.ContactWidget
       (Sample.get_request "/admin/cases/case/add/")) = Ok None
  /\ _get_instance Sample.python
       (Sample.widget_on Sample.ContactWidget
          (Sample.get_request "/admin/cases/case/12/"))
     = Ok (Some Sample.saved_case).
Proof.
  split.
  - refine (proj1 (C5_get_instance_from_path Sample.python
                     (Sample.widget_on Sample.ContactWidget
                        (Sample.get_request "/admin/cases/case/add/")) _) _).
    + discriminate.
    + reflexivity.
  - refine (proj2 (C5_get_instance_from_path Sample.python
                     (Sample.widget_on Sample.ContactWidget
                        (Sample.get_request "/admin/cases/case/12/")) _)
                  12%Z _).
    + discriminate.
    + reflexivity.
Defined.

(** ** The widget identifier *)

Lemma append_assoc (s1 s2 s3 : string) :
  (s1 +:+ s2) +:+ s3 = s1 +:+ (s2 +:+ s3).
Proof.
  induction s1 as [|a s1 IH]; [reflexivity|].
  change (String a ((s1 +:+ s2) +:+ s3) = String a (s1 +:+ (s2 +:+ s3))).
  by rewrite IH.
Qed.

Lemma salted_string_concat env self :
  salted_string env self
  = SECRET_KEY env +:+ bf_name (base_field self) +:+ class_name (modeladmin self).
Proof. unfold salted_string, join. apply append_assoc. Qed.

(** C6: without an override name the identifier is ["_"] followed by the
    SHA-1 hex digest of secret, field name and admin class name joined, so
    widgets with the same triple have the same identifier; with an override
    name the identifier is that name. *)
Theorem C6_hashed_name_function_of_triple :
  (forall env self,
     unique_name self = None ->
     _hashed_name env self
     = "_" +:+ sha1_hexdigest (SECRET_KEY env +:+ bf_name (base_field self)
                               +:+ class_name (modeladmin self)))
  /\ (forall env1 env2 w1 w2,
        unique_name w1 = None -> unique_name w2 = None ->
        SECRET_KEY env1 = SECRET_KEY env2 ->
        bf_name (base_field w1) = bf_name (base_field w2) ->
        class_name (modeladmin w1) = class_name (modeladmin w2) ->
        _hashed_name env1 w1 = _hashed_name env2 w2)
  /\ (forall env self n,
        unique_name self = Some n -> _hashed_name env self = n).
Proof.
  split; [|split].
  - intros env self Hnone. unfold _hashed_name. rewrite Hnone.
    by rewrite salted_string_concat.
  - intros env1 env2 w1 w2 H1 H2 Hs Hf Hc. unfold _hashed_name.
    rewrite H1, H2, !salted_string_concat. by rewrite Hs, Hf, Hc.
  - intros env self n Hsome. unfold _hashed_name. by rewrite Hsome.
Qed.

Lemma C6_hashed_name_function_of_triple_witness :
  _hashed_name Sample.site
    (Sample.widget_on Sample.ContactWidget (Sample.get_request "/admin/cases/case/12/"))
  = "_08f7f8d668826c0fe2ff144343084a6090435de1"
  /\ _hashed_name Sample.site
       (Sample.widget_on Sample.ContactWidget (Sample.get_request "/admin/cases/case/12/"))
     = _hashed_name Sample.site
         (Sample.widget_on Sample.PlainWidget (Sample.post_request []))
  /\ _hashed_name Sample.site
       (Sample.widget_on Sample.NamedWidget (Sample.get_request "/admin/cases/case/12/"))
     = "contact_picker".
Proof.
  destruct C6_hashed_name_function_of_triple as (Hdigest & Hsame & Hname).
  split; [|split].
  - rewrite Hdigest; [|reflexivity]. vm_compute. reflexivity.
  - apply Hsame; reflexivity.
  - apply Hname. reflexivity.
Defined.

(** C7: the claim that triples differing in a component give different
    identifiers, evaluated on two widgets of one site: field [case] under
    the admin class [LogAdmin], and field [caseLog] under the admin class
    [Admin].  The three strings are joined with no separator, the salted
    strings coincide, and so do the identifiers. *)
Theorem C7_distinct_triples_same_identifier :
  let model := Sample.case_model in
  let w1 := new_widget Sample.site Sample.ContactWidget
              (MkBaseField "case" model)
              (MkModelAdmin "LogAdmin" (fun _ _ => Ok None))
              (Sample.get_request "/") None in
  let w2 := new_widget Sample.site Sample.ContactWidget
              (MkBaseField "caseLog" model)
              (MkModelAdmin "Admin" (fun _ _ => Ok None))
              (Sample.get_request "/") None in
  unique_name w1 = None /\ unique_name w2 = None
  /\ bf_name (base_field w1) = "case" /\ bf_name (base_field w2) = "caseLog"
  /\ class_name (modeladmin w1) = "LogAdmin" /\ class_name (modeladmin w2) = "Admin"
  /\ salted_string Sample.site w1 = salted_string Sample.site w2
  /\ _hashed_name Sample.site w1 = _hashed_name Sample.site w2
  /\ hashed_name w1 = hashed_name w2.
Proof. repeat split. Qed.

(** ** The instance resolver: an instance from a POST request *)

Section Reconstruction.

Variable items : gmap string string.

Lemma contribution_Some f v :
  contribution items f = Some v
  <-> exists raw, items !! name f = Some raw
                  /\ coerce f raw = Ok v /\ v ≠ VNone.
Proof.
  unfold contribution. split.
  - destruct (items !! name f) as [raw|]; [|discriminate].
    destruct (coerce f raw) as [v'|e] eqn:Hpy; [|discriminate].
    destruct v'; cbn; intros [= <-]; eexists; (split; [reflexivity|]);
      by split.
  - intros (raw & -> & -> & Hv). by destruct v.
Qed.

(** A turn of the loop on a coercible field stores the field's
    contribution, and a turn that ends normally was on a coercible field. *)
Lemma collect_value_Ok values f values' :
  collect_value items values f = Ok values' ->
  coercible items f /\ values' = store_value items values f.
Proof.
  unfold collect_value, store_value, contribution, coercible.
  destruct (items !! name f) as [raw|]; [|by intros [= <-]].
  destruct (coerce f raw) as [v|e] eqn:Hpy.
  - intros [= <-]. split; [intros raw' e' [= <-]; congruence|].
    by destruct (is_None v).
  - destruct e; try discriminate. intros [= <-].
    split; [intros raw' e' [= <-]; congruence|done].
Qed.

Lemma collect_value_coercible values f :
  coercible items f ->
  collect_value items values f = Ok (store_value items values f).
Proof.
  unfold collect_value, store_value, contribution, coercible. intros Hf.
  destruct (items !! name f) as [raw|]; [|reflexivity].
  destruct (coerce f raw) as [v|e] eqn:Hpy; [by destruct (is_None v)|].
  by rewrite (Hf raw e eq_refl Hpy).
Qed.

Lemma collect_value_Raise values f e :
  collect_value items values f = Raise e ->
  e ≠ ValidationError
  /\ exists raw, items !! name f = Some raw /\ coerce f raw = Raise e.
Proof.
  unfold collect_value.
  destruct (items !! name f) as [raw|]; [|discriminate].
  destruct (coerce f raw) as [v|e'] eqn:Hpy; [discriminate|].
  destruct e'; intros [= <-]; (split; [discriminate|by exists raw]).
Qed.

Lemma collect_values_coercible fields :
  Forall (coercible items) fields ->
  forall acc,
    collect_values items fields acc = Ok (fold_left (store_value items) fields acc).
Proof.
  induction 1 as [|f fields Hf _ IH]; intros acc; [reflexivity|].
  cbn. rewrite (collect_value_coercible acc f Hf). cbn. apply IH.
Qed.

Lemma collect_values_Ok fields : forall acc values,
  collect_values items fields acc = Ok values ->
  Forall (coercible items) fields
  /\ values = fold_left (store_value items) fields acc.
Proof.
  induction fields as [|f fields IH]; intros acc values; cbn.
  - intros [= <-]. by split.
  - destruct (collect_value items acc f) as [acc'|e] eqn:Hturn; [|discriminate].
    cbn. intros Hrest. apply collect_value_Ok in Hturn as [Hf ->].
    apply IH in Hrest as [Hfields ->]. split; [by constructor|done].
Qed.

Lemma collect_values_Raise fields : forall acc e,
  collect_values items fields acc = Raise e ->
  e ≠ ValidationError
  /\ exists f raw, f ∈ fields /\ items !! name f = Some raw
                   /\ coerce f raw = Raise e.
Proof.
  induction fields as [|f fields IH]; intros acc e; cbn; [discriminate|].
  destruct (collect_value items acc f) as [acc'|e'] eqn:Hturn; cbn.
  - intros Hrest. apply IH in Hrest as (Hne & g & raw & Hin & Hraw & Hpy).
    split; [done|]. exists g, raw. split; [apply elem_of_cons; by right|done].
  - intros [= <-]. apply collect_value_Raise in Hturn as (Hne & raw & Hraw & Hpy).
    split; [done|]. exists f, raw. split; [apply elem_of_cons; by left|done].
Qed.

Lemma fold_collect_sound fields : forall acc n v,
  fold_left (store_value items) fields acc !! n = Some v ->
  acc !! n = Some v
  \/ exists f, f ∈ fields /\ name f = n /\ contribution items f = Some v.
Proof.
  induction fields as [|g fields IH]; intros acc n v; cbn; [by left|].
  intros Hfold. apply IH in Hfold as [Hacc|(f & Hin & Hn & Hc)].
  - unfold store_value in Hacc.
    destruct (contribution items g) as [vg|] eqn:Hg; [|by left].
    apply lookup_insert_Some in Hacc as [[Hname <-]|[_ Hacc]]; [|by left].
    right. exists g. split; [apply elem_of_cons; by left|done].
  - right. exists f. split; [apply elem_of_cons; by right|done].
Qed.

Lemma fold_collect_mono fields : forall acc n,
  is_Some (acc !! n) ->
  is_Some (fold_left (store_value items) fields acc !! n).
Proof.
  induction fields as [|g fields IH]; intros acc n Hacc; cbn; [done|].
  apply IH. unfold store_value.
  destruct (contribution items g) as [vg|]; [|done].
  apply lookup_insert_is_Some'. by right.
Qed.

Lemma fold_collect_complete fields : forall acc f v,
  f ∈ fields -> contribution items f = Some v ->
  is_Some (fold_left (store_value items) fields acc !! name f).
Proof.
  induction fields as [|g fields IH]; intros acc f v Hin Hc;
    [by apply elem_of_nil in Hin|].
  cbn. apply elem_of_cons in Hin as [->|Hin]; [|by eapply IH].
  apply fold_collect_mono. unfold store_value. rewrite Hc.
  rewrite lookup_insert_eq. by eexists.
Qed.

(** Fields of other names leave an entry alone. *)
Lemma fold_collect_frame fields : forall acc n,
  n ∉ name <$> fields ->
  fold_left (store_value items) fields acc !! n = acc !! n.
Proof.
  induction fields as [|g fields IH]; intros acc n Hn; cbn; [done|].
  rewrite fmap_cons in Hn. apply not_elem_of_cons in Hn as [Hg Hn].
  rewrite IH by done. unfold store_value.
  destruct (contribution items g) as [vg|]; [|done].
  by rewrite lookup_insert_ne.
Qed.

(** With distinct field names, the entry of a declared field is its own
    contribution. *)
Lemma fold_collect_exact fields : forall acc f,
  NoDup (name <$> fields) -> f ∈ fields -> acc !! name f = None ->
  fold_left (store_value items) fields acc !! name f = contribution items f.
Proof.
  induction fields as [|g fields IH]; intros acc f Hnd Hin Hacc;
    [by apply elem_of_nil in Hin|].
  rewrite fmap_cons in Hnd. apply NoDup_cons in Hnd as [Hg Hnd].
  cbn. apply elem_of_cons in Hin as [->|Hin].
  - rewrite fold_collect_frame by done. unfold store_value.
    destruct (contribution items g) as [vg|]; [|done].
    by rewrite lookup_insert_eq.
  - apply IH; [done..|]. unfold store_value.
    destruct (contribution items g) as [vg|]; [|done].
    rewrite lookup_insert_ne; [done|].
    intros Heq. apply Hg. rewrite Heq. by apply list_elem_of_fmap_2.
Qed.

(** Every entry of the final dictionary is the value, other than [None],
    that the coercion of a submitted declared field of that name returned. *)
Lemma fold_collect_entries fields n v :
  fold_left (store_value items) fields ∅ !! n = Some v ->
  v ≠ VNone
  /\ exists f raw, f ∈ fields /\ name f = n
                   /\ items !! n = Some raw /\ coerce f raw = Ok v.
Proof.
  intros Hv. apply fold_collect_sound in Hv as [Hv|(f & Hin & Hn & Hc)];
    [by rewrite lookup_empty in Hv|].
  apply contribution_Some in Hc as (raw & Hraw & Hpy & Hnone).
  split; [done|]. exists f, raw. by rewrite <- Hn.
Qed.

End Reconstruction.

Lemma instance_from_request_values req widget values :
  request_values req widget = Ok values ->
  instance_from_request req widget
  = Ok (construct (bf_model (base_field widget)) values).
Proof. intros Hvalues. unfold instance_from_request. by rewrite Hvalues. Qed.

Lemma instance_from_request_Raise req widget e :
  instance_from_request req widget = Raise e ->
  e ≠ ValidationError
  /\ exists f raw,
       f ∈ meta_fields (bf_model (base_field widget))
       /\ dict_of_items (POST req) !! name f = Some raw
       /\ coerce f raw = Raise e.
Proof.
  unfold instance_from_request.
  destruct (request_values req widget) as [values|e'] eqn:Hvalues; [discriminate|].
  intros [= <-]. by eapply collect_values_Raise.
Qed.

(** C4, amended: for every POST submission in which each submitted declared
    field is coercible (it has a form field whose coercion returns or
    raises [ValidationError]), an instance is built from the dictionary
    [values]; a name is populated exactly when a declared field of that
    name appears in the submission and its coercion succeeds with a value
    other than [None], and it then carries such a coerced value; a field
    whose coercion fails is left out; when every submitted value is invalid
    the instance is built from no field at all; with distinct field names
    each entry is the field's own contribution. *)
Theorem C4_instance_from_coerced_not_None_subset (req : Request) (widget : Widget) :
  let items := dict_of_items (POST req) in
  let model := bf_model (base_field widget) in
  Forall (coercible items) (meta_fields model) ->
  exists values,
    request_values req widget = Ok values
    /\ instance_from_request req widget = Ok (construct model values)
    /\ (forall n,
          is_Some (values !! n)
          <-> exists f raw v, f ∈ meta_fields model /\ name f = n
                              /\ items !! n = Some raw
                              /\ coerce f raw = Ok v /\ v ≠ VNone)
    /\ (forall n v,
          values !! n = Some v ->
          exists f raw, f ∈ meta_fields model /\ name f = n
                        /\ items !! n = Some raw /\ coerce f raw = Ok v)
    /\ (forall n,
          (forall f raw, f ∈ meta_fields model -> name f = n ->
                         items !! n = Some raw ->
                         coerce f raw = Raise ValidationError) ->
          values !! n = None)
    /\ ((forall f raw, f ∈ meta_fields model ->
                       items !! name f = Some raw ->
                       coerce f raw = Raise ValidationError) ->
        values = ∅ /\ instance_from_request req widget = Ok (construct model ∅))
    /\ (NoDup (name <$> meta_fields model) ->
        forall f, f ∈ meta_fields model -> values !! name f = contribution items f).
Proof.
  intros items model Hcoercible.
  pose proof (collect_values_coercible items _ Hcoercible ∅) as Hvalues.
  set (values := fold_left (store_value items) (meta_fields model) ∅) in *.
  assert (Hinst : instance_from_request req widget = Ok (construct model values))
    by by apply instance_from_request_values.
  exists values.
  assert (Hsound : forall n v, values !! n = Some v ->
            v ≠ VNone
            /\ exists f raw, f ∈ meta_fields model /\ name f = n
                             /\ items !! n = Some raw /\ coerce f raw = Ok v)
    by (intros n v; apply fold_collect_entries).
  assert (Hfail : forall n,
            (forall f raw, f ∈ meta_fields model -> name f = n ->
                           items !! n = Some raw ->
                           coerce f raw = Raise ValidationError) ->
            values !! n = None).
  { intros n Hall. destruct (values !! n) as [v|] eqn:Hv; [|done].
    apply Hsound in Hv as (_ & f & raw & Hin & Hn & Hraw & Hpy).
    rewrite (Hall f raw Hin Hn Hraw) in Hpy. discriminate. }
  split; [exact Hvalues|]. split; [exact Hinst|].
  split; [|split; [|split; [|split]]].
  - intros n. split.
    + intros [v Hv]. apply Hsound in Hv as (Hnone & f & raw & Hin & Hn & Hraw & Hpy).
      by exists f, raw, v.
    + intros (f & raw & v & Hin & <- & Hraw & Hpy & Hnone).
      eapply fold_collect_complete; [exact Hin|].
      apply contribution_Some. by exists raw.
  - intros n v Hv. by apply Hsound in Hv as [_ Hv].
  - exact Hfail.
  - intros Hall.
    assert (Hempty : values = ∅).
    { apply map_empty. intros n. apply Hfail. intros f raw Hin <-. by apply Hall. }
    split; [done|]. by rewrite Hinst, Hempty.
  - intros Hnd f Hin. by apply fold_collect_exact.
Qed.

Lemma C4_instance_from_coerced_not_None_subset_witness :
  exists values,
    request_values (Sample.post_request [("client", "7"); ("age", "x"); ("title", "t")])
      (Sample.widget_on Sample.ContactWidget (Sample.post_request []))
    = Ok values
    /\ values !! "client" = Some (VInt 7)
    /\ values !! "age" = None.
Proof.
  assert (Hcoercible :
            Forall (coercible
                      (dict_of_items
                         (POST (Sample.post_request
                                  [("client", "7"); ("age", "x"); ("title", "t")]))))
                   (meta_fields Sample.case_model)).
  { repeat constructor; intros raw e Hraw Hpy;
      vm_compute in Hraw; try discriminate Hraw;
      injection Hraw as <-; vm_compute in Hpy; congruence. }
  destruct (C4_instance_from_coerced_not_None_subset
              (Sample.post_request [("client", "7"); ("age", "x"); ("title", "t")])
              (Sample.widget_on Sample.ContactWidget (Sample.post_request []))
              Hcoercible)
    as (values & Hvalues & _ & _ & _ & _ & _ & Hexact).
  assert (Hnd : NoDup (name <$> meta_fields Sample.case_model)).
  { apply (@bool_decide_unpack _ (NoDup_dec _)). vm_compute. exact I. }
  exists values. split; [exact Hvalues|]. split.
  - apply (Hexact Hnd Sample.client_field).
    apply elem_of_cons. right. apply elem_of_cons. by left.
  - apply (Hexact Hnd Sample.age_field).
    do 2 (apply elem_of_cons; right). apply elem_of_cons. by left.
Defined.

(** C4 as stated fails on two submissions.  The [age] field coerces the
    empty input to [None] without failing, so it belongs to the
    successfully coerced subset, yet the keyword arguments given to the
    model leave it out.  And a submission that carries the [id] of the
    model, a declared field without a form field, builds no instance at
    all: the [AttributeError] is not caught. *)
Lemma C4_counterexample_coerced_None_left_out :
  let widget := Sample.widget_on Sample.ContactWidget (Sample.post_request []) in
  coerce Sample.age_field "" = Ok VNone
  /\ coerced_subset (Sample.post_request [("age", "")]) widget = {[ "age" := VNone ]}
  /\ request_values (Sample.post_request [("age", "")]) widget = Ok ∅
  /\ instance_from_request (Sample.post_request [("age", "")]) widget
     = Ok (construct Sample.case_model ∅)
  /\ instance_from_request (Sample.post_request [("id", "5")]) widget
     = Raise AttributeError.
Proof.
  cbv zeta. split; [reflexivity|]. split; [|split; [|split; [|reflexivity]]].
  - apply map_eq. intros n. by vm_compute.
  - by vm_compute.
  - by vm_compute.
Qed.

(** C9: for every POST submission, when the loop ends with a dictionary
    [values] the instance is built from it, and every value populated is
    other than [None] and is the coerced value of a declared field of that
    name; a turn of the loop whose coercion yields [None] leaves [values]
    as it was, so a name whose fields all coerce to [None] is not
    populated.  The loop does end with a dictionary when every submitted
    declared field is coercible; otherwise what is raised is the exception,
    other than [ValidationError], of the coercion of a submitted declared
    field. *)
Theorem C9_populated_values_are_not_None (req : Request) (widget : Widget) :
  let items := dict_of_items (POST req) in
  let model := bf_model (base_field widget) in
  (forall values,
     request_values req widget = Ok values ->
     instance_from_request req widget = Ok (construct model values)
     /\ (forall n v,
           values !! n = Some v ->
           v ≠ VNone
           /\ exists f raw, f ∈ meta_fields model /\ name f = n
                            /\ items !! n = Some raw /\ coerce f raw = Ok v)
     /\ (forall n,
           (forall f raw, f ∈ meta_fields model -> name f = n ->
                          items !! n = Some raw -> coerce f raw = Ok VNone) ->
           values !! n = None))
  /\ (forall acc f raw,
        items !! name f = Some raw -> coerce f raw = Ok VNone ->
        collect_value items acc f = Ok acc)
  /\ (Forall (coercible items) (meta_fields model) ->
      exists values, request_values req widget = Ok values)
  /\ (forall e,
        instance_from_request req widget = Raise e ->
        e ≠ ValidationError
        /\ exists f raw, f ∈ meta_fields model /\ items !! name f = Some raw
                         /\ coerce f raw = Raise e).
Proof.
  intros items model. split; [|split; [|split]].
  - intros values Hvalues.
    split; [by apply instance_from_request_values|].
    apply collect_values_Ok in Hvalues as [_ ->].
    assert (Hsound : forall n v,
              fold_left (store_value items) (meta_fields model) ∅ !! n = Some v ->
              v ≠ VNone
              /\ exists f raw, f ∈ meta_fields model /\ name f = n
                               /\ items !! n = Some raw /\ coerce f raw = Ok v)
      by (intros n v; apply fold_collect_entries).
    split; [exact Hsound|].
    intros n Hall.
    destruct (fold_left (store_value items) (meta_fields model) ∅ !! n)
      as [v|] eqn:Hv; [|done].
    apply Hsound in Hv as (Hnone & f & raw & Hin & Hn & Hraw & Hpy).
    rewrite (Hall f raw Hin Hn Hraw) in Hpy. by injection Hpy as <-.
  - intros acc f raw Hraw Hpy. unfold collect_value. by rewrite Hraw, Hpy.
  - intros Hcoercible. eexists. by apply collect_values_coercible.
  - intros e. apply instance_from_request_Raise.
Qed.

Lemma C9_populated_values_are_not_None_witness :
  request_values (Sample.post_request [("age", ""); ("title", "t")])
    (Sample.widget_on Sample.ContactWidget (Sample.post_request []))
  = Ok {[ "title" := VStr "t" ]}
  /\ ({[ "title" := VStr "t" ]} : gmap string value) !! "age" = None
  /\ VStr "t" ≠ VNone.
Proof.
  assert (Hvalues :
            request_values (Sample.post_request [("age", ""); ("title", "t")])
              (Sample.widget_on Sample.ContactWidget (Sample.post_request []))
            = Ok {[ "title" := VStr "t" ]}) by by vm_compute.
  destruct (proj1 (C9_populated_values_are_not_None
                     (Sample.post_request [("age", ""); ("title", "t")])
                     (Sample.widget_on Sample.ContactWidget (Sample.post_request [])))
                  _ Hvalues) as (_ & Hsound & Hnone).
  split; [exact Hvalues|]. split.
  - apply Hnone. intros f raw Hin Hname Hraw.
    repeat (apply elem_of_cons in Hin as [->|Hin]);
      try (by apply elem_of_nil in Hin);
      try discriminate Hname;
      vm_compute in Hraw; injection Hraw as <-; reflexivity.
  - apply (Hsound "title"). by vm_compute.
Defined.

(** ** The render contract *)

Lemma render_raises_TypeError py env self inst cs name_ val attrs :
  _get_instance py self = Ok inst ->
  compute_choices self inst = Ok cs ->
  render py env self name_ val attrs = (with_choices self cs, Raise TypeError).
Proof. intros Hinst Hcs. unfold render, render_with. by rewrite Hinst, Hcs. Qed.

(** [render] never hands markup back. *)
Lemma render_never_returns py env self name_ val attrs :
  exists self' e, render py env self name_ val attrs = (self', Raise e).
Proof.
  unfold render, render_with.
  destruct (_get_instance py self) as [inst|e]; [|by eexists _, _].
  destruct (compute_choices self inst) as [cs|e]; by eexists _, _.
Qed.

Lemma render_hashed_name py env self name_ val attrs :
  hashed_name (render py env self name_ val attrs).1 = hashed_name self.
Proof.
  unfold render, render_with.
  destruct (_get_instance py self) as [inst|e]; [|reflexivity].
  by destruct (compute_choices self inst) as [cs|e].
Qed.

(** The contract as worded: the control, the script block and the details
    span, in that order. *)
Lemma render_spec_concatenates py env self inst cs c rest control js det
    name_ val attrs :
  _get_instance py self = Ok inst ->
  compute_choices self inst = Ok cs ->
  after FlexBaseWidget (mro (parent (w_class self))) = c :: rest ->
  select_render env c cs name_ val attrs = Ok control ->
  _build_js env (with_choices self cs) = Ok js ->
  details_from_instance inst (with_choices self cs) = Ok det ->
  render_spec py env self name_ val attrs
  = (with_choices self cs,
     Ok ((((control +:+ js)
           +:+ "<span class=" +:+ dquote +:+ "flexselect_details" +:+ dquote +:+ ">")
          +:+ det) +:+ "</span>")).
Proof.
  intros Hinst Hcs Hafter Hcontrol Hjs Hdet. unfold render_spec, render_with.
  rewrite Hinst, Hcs. unfold render_parts, super. cbn [w_class with_choices].
  rewrite Hafter. cbn. rewrite Hcontrol. cbn. rewrite Hjs. cbn. rewrite Hdet.
  reflexivity.
Qed.

(** C1: the render contract, evaluated on the change page of case 12.  The
    instance is resolved and the choices are set, but [super(self,
    FlexBaseWidget)] has its arguments in the wrong order and raises
    [TypeError] before any markup is assembled; with the arguments in the
    order [__init__] uses, the output is the control, the script block and
    the details span, in that order. *)
Theorem C1_render_raises_before_output :
  let self := Sample.widget_on Sample.ContactWidget
                (Sample.get_request "/admin/cases/case/12/") in
  let self' := with_choices self
                 [(VStr "", "---------"); (VInt 1, "A"); (VInt 2, "B")] in
  _get_instance Sample.python self = Ok (Some Sample.saved_case)
  /\ render Sample.python Sample.site self "contact" VNone None
     = (self', Raise TypeError)
  /\ exists control js det,
       select_render Sample.site Select (choices self') "contact" VNone None
       = Ok control
       /\ _build_js Sample.site self' = Ok js
       /\ details_from_instance (Some Sample.saved_case) self' = Ok det
       /\ render_spec Sample.python Sample.site self "contact" VNone None
          = (self',
             Ok ((((control +:+ js)
                   +:+ "<span class=" +:+ dquote +:+ "flexselect_details"
                   +:+ dquote +:+ ">")
                  +:+ det) +:+ "</span>")).
Proof.
  cbv zeta. split; [reflexivity|]. split; [reflexivity|].
  eexists _, _, _. repeat split.
Qed.

(** ** The registry *)

Lemma class_instances_shared c :
  c ∈ [FlexBaseWidget; FlexSelectWidget; FlexSelectMultipleWidget] ->
  class_instances c = Some instances_loc.
Proof.
  intros Hc. repeat (apply elem_of_cons in Hc as [->|Hc]); try reflexivity.
  by apply elem_of_nil in Hc.
Qed.

Lemma __init___unfold env wd cls bf ma req cf :
  __init__ env wd cls bf ma req cf
  = ({| dicts := setitem instances_loc
                   (hashed_name (new_widget env cls bf ma req cf))
                   (next_addr wd) (dicts wd);
        heap := <[ next_addr wd := new_widget env cls bf ma req cf ]> (heap wd);
        next_addr := S (next_addr wd) |},
     Ok (next_addr wd)).
Proof. reflexivity. Qed.

Lemma setitem_lookup l key a ds key' :
  (setitem l key a ds !!! l) !! key'
  = if String.eqb key key' then Some a else (ds !!! l) !! key'.
Proof.
  unfold setitem. rewrite lookup_total_insert_eq.
  destruct (String.eqb key key') eqn:Heq.
  - apply String.eqb_eq in Heq as ->. apply lookup_insert_eq.
  - apply String.eqb_neq in Heq. by apply lookup_insert_ne.
Qed.

Lemma registry_after_init env wd cls bf ma req cf key :
  registry FlexBaseWidget (__init__ env wd cls bf ma req cf).1 !! key
  = if String.eqb (hashed_name (new_widget env cls bf ma req cf)) key
    then Some (next_addr wd)
    else registry FlexBaseWidget wd !! key.
Proof. rewrite __init___unfold. apply setitem_lookup. Qed.

Lemma call_render_dicts py env wd a name_ val attrs :
  dicts (call_render py env wd a name_ val attrs).1 = dicts wd
  /\ next_addr (call_render py env wd a name_ val attrs).1 = next_addr wd.
Proof.
  unfold call_render. destruct (heap wd !! a) as [self|]; [|done].
  by destruct (render py env self name_ val attrs).
Qed.

Lemma registry_after_render py env wd a name_ val attrs :
  registry FlexBaseWidget (call_render py env wd a name_ val attrs).1
  = registry FlexBaseWidget wd.
Proof.
  unfold registry. cbn.
  by rewrite (proj1 (call_render_dicts py env wd a name_ val attrs)).
Qed.

Lemma registry_after_run py env ops : forall wd key,
  registry FlexBaseWidget (run py env ops wd) !! key
  = last_constructed env key ops (next_addr wd)
      (registry FlexBaseWidget wd !! key).
Proof.
  induction ops as [|o ops IH]; intros wd key; [reflexivity|].
  change (run py env (o :: ops) wd) with (run py env ops (exec py env wd o)).
  rewrite IH. destruct o as [cls bf ma req cf|a n v attrs|f]; cbn [exec last_constructed].
  - by rewrite registry_after_init, __init___unfold.
  - rewrite registry_after_render.
    by rewrite (proj2 (call_render_dicts py env wd a n v attrs)).
  - reflexivity.
Qed.

Lemma registry_keeps_key py env o wd key :
  is_Some (registry FlexBaseWidget wd !! key) ->
  is_Some (registry FlexBaseWidget (exec py env wd o) !! key).
Proof.
  intros Hkey. destruct o as [cls bf ma req cf|a n v attrs|f]; cbn [exec].
  - rewrite registry_after_init.
    by destruct (String.eqb _ key).
  - by rewrite registry_after_render.
  - done.
Qed.

Lemma registry_keeps_key_run py env ops : forall wd key,
  is_Some (registry FlexBaseWidget wd !! key) ->
  is_Some (registry FlexBaseWidget (run py env ops wd) !! key).
Proof.
  induction ops as [|o ops IH]; intros wd key Hkey; [done|].
  change (run py env (o :: ops) wd) with (run py env ops (exec py env wd o)).
  by apply IH, registry_keeps_key.
Qed.

Lemma initial_world_well_formed : well_formed initial_world.
Proof.
  split.
  - intros a [w Hw]. change (heap initial_world) with (∅ : gmap nat Widget) in Hw.
    by rewrite lookup_empty in Hw.
  - intros key a Hkey.
    change (registry FlexBaseWidget initial_world)
      with (({[ instances_loc := ∅ ]} : gmap positive (gmap string nat))
              !!! instances_loc) in Hkey.
    rewrite lookup_total_singleton_eq in Hkey. by rewrite lookup_empty in Hkey.
Qed.

Lemma exec_well_formed py env o wd :
  well_formed wd -> well_formed (exec py env wd o).
Proof.
  intros [Hheap Hreg]. destruct o as [cls bf ma req cf|a n v attrs|f]; cbn [exec];
    [| |by split].
  - split.
    + rewrite __init___unfold. cbn. intros a Ha.
      apply lookup_insert_is_Some in Ha as [<-|[_ Ha]]; [lia|].
      apply Hheap in Ha. lia.
    + intros key a. rewrite registry_after_init. rewrite __init___unfold. cbn.
      destruct (String.eqb _ key) eqn:Heq.
      * intros [= <-]. apply String.eqb_eq in Heq.
        eexists. by rewrite lookup_insert_eq.
      * intros Hkey. destruct (Hreg key a Hkey) as (w & Hw & Hname).
        exists w. split; [|done]. rewrite lookup_insert_ne; [done|].
        intros <-. assert (next_addr wd < next_addr wd); [|lia].
        apply Hheap. by eexists.
  - split.
    + intros b Hb. rewrite (proj2 (call_render_dicts py env wd a n v attrs)).
      apply Hheap. unfold call_render in Hb.
      destruct (heap wd !! a) as [self|] eqn:Ha; [|done].
      destruct (render py env self n v attrs) as [self' r]. cbn in Hb.
      apply lookup_insert_is_Some in Hb as [<-|[_ Hb]]; [by eexists|done].
    + intros key b. rewrite registry_after_render. intros Hkey.
      destruct (Hreg key b Hkey) as (w & Hw & Hname).
      unfold call_render. destruct (heap wd !! a) as [self|] eqn:Ha; [|by exists w].
      pose proof (render_hashed_name py env self n v attrs) as Hsame.
      destruct (render py env self n v attrs) as [self' r]. cbn in *.
      destruct (decide (a = b)) as [->|Hne].
      * exists self'. rewrite lookup_insert_eq. split; [done|]. congruence.
      * exists w. by rewrite lookup_insert_ne.
Qed.

Lemma run_well_formed py env ops : forall wd,
  well_formed wd -> well_formed (run py env ops wd).
Proof.
  induction ops as [|o ops IH]; intros wd Hwf; [done|].
  change (run py env (o :: ops) wd) with (run py env ops (exec py env wd o)).
  by apply IH, exec_well_formed.
Qed.

(** C8: a construction stores the new widget object under its hashed name
    and touches no other entry; after any run of operations the entry of a
    key is the address of the widget most recently constructed under that
    key; no operation removes an entry; and in a process started from the
    import of the module every entry leads to a widget object carrying that
    key. *)
Theorem C8_registry_last_write_wins :
  (forall env wd cls bf ma req cf,
     let self := new_widget env cls bf ma req cf in
     let wd' := (__init__ env wd cls bf ma req cf).1 in
     (__init__ env wd cls bf ma req cf).2 = Ok (next_addr wd)
     /\ heap wd' !! next_addr wd = Some self
     /\ registry FlexBaseWidget wd' !! hashed_name self = Some (next_addr wd)
     /\ forall key, key ≠ hashed_name self ->
                    registry FlexBaseWidget wd' !! key
                    = registry FlexBaseWidget wd !! key)
  /\ (forall py env ops wd key,
        registry FlexBaseWidget (run py env ops wd) !! key
        = last_constructed env key ops (next_addr wd)
            (registry FlexBaseWidget wd !! key))
  /\ (forall py env o wd key,
        is_Some (registry FlexBaseWidget wd !! key) ->
        is_Some (registry FlexBaseWidget (exec py env wd o) !! key))
  /\ (forall py env ops wd key,
        is_Some (registry FlexBaseWidget wd !! key) ->
        is_Some (registry FlexBaseWidget (run py env ops wd) !! key))
  /\ (forall py env ops, well_formed (run py env ops initial_world)).
Proof.
  split; [|split; [|split; [|split]]].
  - intros env wd cls bf ma req cf self wd'. subst wd'.
    split; [reflexivity|]. split; [|split].
    + rewrite __init___unfold. cbn. apply lookup_insert_eq.
    + rewrite registry_after_init. fold self. by rewrite String.eqb_refl.
    + intros key Hkey. rewrite registry_after_init. fold self.
      destruct (String.eqb (hashed_name self) key) eqn:Heq; [|done].
      apply String.eqb_eq in Heq. congruence.
  - intros py env ops wd key. apply registry_after_run.
  - intros py env o wd key. apply registry_keeps_key.
  - intros py env ops wd key. apply registry_keeps_key_run.
  - intros py env ops. apply run_well_formed, initial_world_well_formed.
Qed.

Lemma C8_registry_last_write_wins_witness :
  let first_ := OpInit Sample.ContactWidget Sample.contact_field Sample.case_admin
                  (Sample.get_request "/admin/cases/case/12/") None in
  let again := OpInit Sample.PlainWidget Sample.contact_field Sample.case_admin
                 (Sample.post_request []) None in
  let show := OpRender 0 "contact" VNone None in
  registry FlexBaseWidget (run Sample.python Sample.site [first_; show; again] initial_world)
    !! "_08f7f8d668826c0fe2ff144343084a6090435de1" = Some 1
  /\ is_Some (registry FlexBaseWidget
                (run Sample.python Sample.site [show; show]
                     (exec Sample.python Sample.site initial_world first_))
                !! "_08f7f8d668826c0fe2ff144343084a6090435de1").
Proof.
  cbv zeta. destruct C8_registry_last_write_wins as (_ & Hrun & _ & Hkeeps & _).
  split.
  - rewrite Hrun. vm_compute. reflexivity.
  - apply Hkeeps. exists 0. by vm_compute.
Defined.

Lemma registry_shared c wd :
  c ∈ [FlexBaseWidget; FlexSelectWidget; FlexSelectMultipleWidget] ->
  registry c wd = registry FlexBaseWidget wd.
Proof. intros Hc. unfold registry. by rewrite (class_instances_shared c Hc). Qed.

(** C10: [FlexSelectWidget.instances], [FlexSelectMultipleWidget.instances]
    and [FlexBaseWidget.instances] are one dictionary; a construction, of
    whichever class, stores into it; and after a widget of each class has
    been constructed, a lookup in that one mapping finds both. *)
Theorem C10_one_registry_for_both_classes :
  class_instances FlexSelectWidget = class_instances FlexBaseWidget
  /\ class_instances FlexSelectMultipleWidget = class_instances FlexBaseWidget
  /\ class_instances FlexBaseWidget = Some instances_loc
  /\ (forall env wd cls bf ma req cf,
        let self := new_widget env cls bf ma req cf in
        let wd' := (__init__ env wd cls bf ma req cf).1 in
        dicts wd' = setitem instances_loc (hashed_name self) (next_addr wd) (dicts wd)
        /\ forall c,
             c ∈ [FlexBaseWidget; FlexSelectWidget; FlexSelectMultipleWidget] ->
             registry c wd' !! hashed_name self = Some (next_addr wd))
  /\ (forall py env wd cls1 bf1 ma1 req1 cf1 cls2 bf2 ma2 req2 cf2,
        parent cls1 = FlexSelectWidget ->
        parent cls2 = FlexSelectMultipleWidget ->
        let w1 := new_widget env cls1 bf1 ma1 req1 cf1 in
        let w2 := new_widget env cls2 bf2 ma2 req2 cf2 in
        hashed_name w1 ≠ hashed_name w2 ->
        let wd' := run py env [OpInit cls1 bf1 ma1 req1 cf1; OpInit cls2 bf2 ma2 req2 cf2]
                       wd in
        forall c,
          c ∈ [FlexBaseWidget; FlexSelectWidget; FlexSelectMultipleWidget] ->
          registry c wd' !! hashed_name w1 = Some (next_addr wd)
          /\ registry c wd' !! hashed_name w2 = Some (S (next_addr wd))
          /\ heap wd' !! next_addr wd = Some w1
          /\ heap wd' !! S (next_addr wd) = Some w2).
Proof.
  split; [reflexivity|]. split; [reflexivity|]. split; [reflexivity|]. split.
  - intros env wd cls bf ma req cf self wd'. subst wd'.
    split; [reflexivity|]. intros c Hc.
    rewrite (registry_shared c _ Hc), registry_after_init. fold self.
    by rewrite String.eqb_refl.
  - intros py env wd cls1 bf1 ma1 req1 cf1 cls2 bf2 ma2 req2 cf2 _ _ w1 w2 Hne wd' c Hc.
    subst wd'. rewrite (registry_shared c _ Hc), !registry_after_run.
    cbn [last_constructed]. fold w1 w2. rewrite !String.eqb_refl.
    assert (String.eqb (hashed_name w2) (hashed_name w1) = false) as ->.
    { apply String.eqb_neq. congruence. }
    split; [done|]. split; [done|].
    unfold run. cbn [fold_left exec]. rewrite !__init___unfold.
    cbn [heap next_addr fst]. fold w1 w2. split.
    + rewrite lookup_insert_ne by lia. apply lookup_insert_eq.
    + apply lookup_insert_eq.
Qed.

Lemma C10_one_registry_for_both_classes_witness :
  let single := Sample.widget_on Sample.ContactWidget (Sample.post_request []) in
  let multiple := Sample.widget_on Sample.NamedWidget (Sample.post_request []) in
  let wd := run Sample.python Sample.site
              [ OpInit Sample.ContactWidget Sample.contact_field Sample.case_admin
                       (Sample.post_request []) None;
                OpInit Sample.NamedWidget Sample.contact_field Sample.case_admin
                       (Sample.post_request []) None ]
              initial_world in
  registry FlexSelectWidget wd !! hashed_name single = Some 0
  /\ registry FlexSelectWidget wd !! hashed_name multiple = Some 1
  /\ heap wd !! 0 = Some single
  /\ heap wd !! 1 = Some multiple.
Proof.
  cbv zeta.
  destruct C10_one_registry_for_both_classes as (_ & _ & _ & _ & Hboth).
  apply (Hboth Sample.python Sample.site initial_world
               Sample.ContactWidget Sample.contact_field Sample.case_admin
               (Sample.post_request []) None
               Sample.NamedWidget Sample.contact_field Sample.case_admin
               (Sample.post_request []) None).
  - reflexivity.
  - reflexivity.
  - by vm_compute.
  - apply elem_of_cons. right. apply elem_of_cons. by left.
Defined.

(** * Further properties of the code *)

(** ** Choices and details *)

Lemma touch_trigger_fields_readable inst widget :
  Forall (readable inst) (trigger_fields widget) ->
  touch_trigger_fields inst widget = Ok tt.
Proof.
  unfold touch_trigger_fields.
  induction 1 as [|f fields [v Hv] _ IH]; [reflexivity|].
  cbn. rewrite Hv. exact IH.
Qed.

(** X1: when some trigger field of the widget cannot be read on the
    instance, [choices_from_instance] is the single choice made of the
    widget's empty-state text (or the exception of that hook) and
    [details_from_instance] is the empty string, wherever the field stands
    in [trigger_fields] and whatever the other attributes are. *)
Theorem X1_unreadable_trigger_field_degrades
    (inst : option instance) (widget : Widget) (f : string) (e : exn) :
  f ∈ trigger_fields widget ->
  getattr inst f = Raise e ->
  choices_from_instance inst widget
  = (empty_choices_text widget inst ≫= fun text => Ok [(VStr "", text)])
  /\ details_from_instance inst widget = Ok "".
Proof.
  intros Hin Hf. split.
  - by eapply choices_from_instance_degrades.
  - by eapply details_from_instance_degrades.
Qed.

Lemma X1_unreadable_trigger_field_degrades_witness :
  choices_from_instance (Some Cases.blank_case)
    (Sample.widget_on Sample.ContactWidget (Sample.post_request []))
  = Ok [(VStr "", "Please update the client field")]
  /\ details_from_instance (Some Cases.blank_case)
       (Sample.widget_on Sample.ContactWidget (Sample.post_request []))
     = Ok "".
Proof.
  apply (X1_unreadable_trigger_field_degrades
           (Some Cases.blank_case)
           (Sample.widget_on Sample.ContactWidget (Sample.post_request []))
           "client" AttributeError).
  - apply elem_of_cons. by left.
  - reflexivity.
Defined.

(** X2: without an instance the details are always empty, and the choices
    are the empty-state choice exactly when the widget has a trigger field;
    a widget with no trigger field asks its [queryset] hook with [None]. *)
Theorem X2_choices_and_details_without_instance (widget : Widget) :
  details_from_instance None widget = Ok ""
  /\ choices_from_instance None widget
     = match trigger_fields widget with
       | [] => queryset widget None ≫= fun qs => Ok (choices_from_queryset qs)
       | _ :: _ =>
           empty_choices_text widget None ≫= fun text => Ok [(VStr "", text)]
       end.
Proof.
  split; [apply details_from_instance_None|].
  destruct (trigger_fields widget) as [|f fields] eqn:Hfields.
  - by apply choices_from_instance_no_trigger.
  - by eapply choices_from_instance_None.
Qed.

(** X3: when every trigger field can be read on the instance, the choices
    are those of the widget's [queryset] hook (the sentinel, then one pair
    per record; an exception of the hook is passed on), and the details are
    those of the [details] hook applied to the related object, or the empty
    string when the base field itself cannot be read. *)
Theorem X3_readable_trigger_fields_use_hooks
    (inst : option instance) (widget : Widget) :
  Forall (readable inst) (trigger_fields widget) ->
  choices_from_instance inst widget
  = (queryset widget inst ≫= fun qs => Ok (choices_from_queryset qs))
  /\ (forall qs,
        queryset widget inst = Ok qs ->
        exists cs, choices_from_instance inst widget = Ok cs
                   /\ head cs = Some EMPTY_CHOICE
                   /\ length cs = S (length qs)
                   /\ snd <$> tail cs = smart_unicode <$> qs)
  /\ (forall e,
        queryset widget inst = Raise e ->
        choices_from_instance inst widget = Raise e)
  /\ details_from_instance inst widget
     = match getattr inst (bf_name (base_field widget)) with
       | Ok related_instance => details widget related_instance inst
       | Raise _ => Ok ""
       end.
Proof.
  intros Hall. pose proof (touch_trigger_fields_readable inst widget Hall) as Htouch.
  assert (Hchoices : choices_from_instance inst widget
            = (queryset widget inst ≫= fun qs => Ok (choices_from_queryset qs))).
  { unfold choices_from_instance. by rewrite Htouch. }
  split; [exact Hchoices|]. split; [|split].
  - intros qs Hqs. exists (choices_from_queryset qs).
    rewrite Hchoices, Hqs. split; [reflexivity|].
    unfold choices_from_queryset, chain. cbn [concat]. rewrite app_nil_r. cbn.
    split; [reflexivity|]. split; [by rewrite length_fmap|].
    rewrite <- list_fmap_compose. reflexivity.
  - intros e He. by rewrite Hchoices, He.
  - unfold details_from_instance. rewrite Htouch. cbn.
    destruct (getattr inst (bf_name (base_field widget))) as [v|e] eqn:Hbase;
      [reflexivity|].
    by rewrite (getattr_raises_missing inst _ _ Hbase).
Qed.

Lemma X3_readable_trigger_fields_use_hooks_witness :
  choices_from_instance (Some Sample.saved_case)
    (Sample.widget_on Sample.ContactWidget (Sample.post_request []))
  = Ok [(VStr "", "---------"); (VInt 1, "A"); (VInt 2, "B")]
  /\ details_from_instance (Some Sample.saved_case)
       (Sample.widget_on Sample.ContactWidget (Sample.post_request []))
     = Ok "<div>A</div>"
  /\ details_from_instance (Some Cases.orphan_case)
       (Sample.widget_on Sample.ContactWidget (Sample.post_request []))
     = Ok "".
Proof.
  assert (Hsaved : Forall (readable (Some Sample.saved_case))
                     (trigger_fields (Sample.widget_on Sample.ContactWidget
                                        (Sample.post_request [])))).
  { repeat constructor. by exists (VInt 7). }
  assert (Horphan : Forall (readable (Some Cases.orphan_case))
                      (trigger_fields (Sample.widget_on Sample.ContactWidget
                                         (Sample.post_request [])))).
  { repeat constructor. by exists (VInt 7). }
  split; [|split].
  - apply (X3_readable_trigger_fields_use_hooks _ _ Hsaved).
  - apply (X3_readable_trigger_fields_use_hooks _ _ Hsaved).
  - apply (X3_readable_trigger_fields_use_hooks _ _ Horphan).
Defined.

(** X4: a widget class that keeps the base class's hooks fails loudly: its
    choices raise [NotImplementedError] for every instance, [None]
    included, and so do its details as soon as the base field can be read;
    only when the base field cannot be read do the details degrade to the
    empty string. *)
Theorem X4_unimplemented_hooks_raise :
  forall env p bf ma req (inst : option instance),
    let widget := new_widget env (base_widget_class p) bf ma req None in
    choices_from_instance inst widget = Raise NotImplementedError
    /\ compute_choices widget inst = Raise NotImplementedError
    /\ details_from_instance inst widget
       = match getattr inst (bf_name bf) with
         | Ok _ => Raise NotImplementedError
         | Raise _ => Ok ""
         end.
Proof.
  intros env p bf ma req inst widget. split; [reflexivity|]. split; [reflexivity|].
  unfold details_from_instance, touch_trigger_fields. cbn.
  destruct (getattr inst (bf_name bf)) as [v|e] eqn:Hbase; [reflexivity|].
  by rewrite (getattr_raises_missing inst _ _ Hbase).
Qed.

(** ** What [render] does to the widget *)

(** X5: [render] never returns markup.  It raises what instance resolution
    or the choice computation raise, and [TypeError] once both have
    succeeded; in that last case [self.choices] holds the computed choices,
    and no other attribute of the widget is ever changed.  Neither the URL
    configuration nor the underlying control is consulted: the outcome is
    the same on every site. *)
Theorem X5_render_raises_and_only_sets_choices :
  forall py env self name_ val attrs,
    (exists e, (render py env self name_ val attrs).2 = Raise e)
    /\ (forall inst cs,
          _get_instance py self = Ok inst -> compute_choices self inst = Ok cs ->
          render py env self name_ val attrs = (with_choices self cs, Raise TypeError))
    /\ (forall e,
          _get_instance py self = Raise e ->
          render py env self name_ val attrs = (self, Raise e))
    /\ (forall inst e,
          _get_instance py self = Ok inst -> compute_choices self inst = Raise e ->
          render py env self name_ val attrs = (self, Raise e))
    /\ (let self' := (render py env self name_ val attrs).1 in
        w_class self' = w_class self
        /\ choice_function self' = choice_function self
        /\ base_field self' = base_field self
        /\ modeladmin self' = modeladmin self
        /\ request self' = request self
        /\ hashed_name self' = hashed_name self)
    /\ (forall env', render py env' self name_ val attrs = render py env self name_ val attrs).
Proof.
  intros py env self name_ val attrs. unfold render, render_with.
  destruct (_get_instance py self) as [inst|e] eqn:Hinst.
  - destruct (compute_choices self inst) as [cs|e] eqn:Hcs; cbn.
    + split; [by eexists|]. split.
      { intros inst0 cs0 [= <-] Hcs0. rewrite Hcs in Hcs0. by injection Hcs0 as <-. }
      split; [discriminate|]. split.
      { intros inst0 e0 [= <-] Hcs0. congruence. }
      by repeat split.
    + split; [by eexists|]. split.
      { intros inst0 cs0 [= <-] Hcs0. congruence. }
      split; [discriminate|]. split.
      { intros inst0 e0 [= <-] Hcs0. rewrite Hcs in Hcs0. by injection Hcs0 as <-. }
      by repeat split.
  - cbn. split; [by eexists|]. split; [discriminate|]. split.
    { by intros e0 [= <-]. }
    split; [discriminate|]. by repeat split.
Qed.

(** ** What [instance_from_request] reads *)

Lemma collect_values_ext items1 items2 fields :
  (forall f, f ∈ fields -> items1 !! name f = items2 !! name f) ->
  forall acc,
    collect_values items1 fields acc = collect_values items2 fields acc.
Proof.
  induction fields as [|g fields IH]; intros Hagree acc; [reflexivity|].
  cbn. unfold collect_value at 1 2.
  rewrite (Hagree g) by (apply elem_of_cons; by left).
  destruct (items2 !! name g) as [raw|]; cbn.
  - destruct (coerce g raw) as [v|[]]; cbn; try reflexivity;
      apply IH; intros f Hf; apply Hagree; apply elem_of_cons; by right.
  - apply IH. intros f Hf. apply Hagree. apply elem_of_cons. by right.
Qed.

(** In [dict(pairs)] the last pair of a key decides its value. *)
Lemma fold_insert_lookup (pairs : list (string * string)) :
  forall (acc : gmap string string) k,
    fold_left (fun d kv => <[kv.1 := kv.2]> d) pairs acc !! k
    = match dict_of_items pairs !! k with
      | Some v => Some v
      | None => acc !! k
      end.
Proof.
  unfold dict_of_items.
  induction pairs as [|[k' v'] pairs IH]; intros acc k; cbn [fold_left fst snd].
  - by rewrite lookup_empty.
  - rewrite (IH (<[k':=v']> acc)), (IH (<[k':=v']> ∅)).
    destruct (fold_left _ pairs ∅ !! k) as [v|]; [reflexivity|].
    destruct (decide (k' = k)) as [->|Hne].
    + by rewrite !lookup_insert_eq.
    + by rewrite !lookup_insert_ne, lookup_empty.
Qed.

Lemma dict_of_items_drop before k v after n :
  n ≠ k ->
  dict_of_items (before ++ (k, v) :: after) !! n
  = dict_of_items (before ++ after) !! n.
Proof.
  intros Hne. unfold dict_of_items. rewrite !fold_left_app. cbn [fold_left fst snd].
  set (d := fold_left _ before ∅).
  rewrite (fold_insert_lookup after (<[k:=v]> d)), (fold_insert_lookup after d).
  destruct (dict_of_items after !! n) as [x|]; [reflexivity|].
  rewrite lookup_insert_ne; [reflexivity|congruence].
Qed.

(** X6: [instance_from_request] reads the submission only at the names of
    the declared fields: two submissions that agree there have the same
    outcome, the same instance or the same exception, so a submitted key
    that names no declared field (a CSRF token, a button) is ignored
    wherever it stands among the pairs. *)
Theorem X6_only_declared_fields_are_read :
  (forall req req' widget,
     (forall f, f ∈ meta_fields (bf_model (base_field widget)) ->
                dict_of_items (POST req) !! name f
                = dict_of_items (POST req') !! name f) ->
     instance_from_request req widget = instance_from_request req' widget)
  /\ (forall widget m path before k v after,
        k ∉ name <$> meta_fields (bf_model (base_field widget)) ->
        instance_from_request (MkRequest m path (before ++ (k, v) :: after)) widget
        = instance_from_request (MkRequest m path (before ++ after)) widget).
Proof.
  assert (Hext : forall req req' widget,
            (forall f, f ∈ meta_fields (bf_model (base_field widget)) ->
                       dict_of_items (POST req) !! name f
                       = dict_of_items (POST req') !! name f) ->
            instance_from_request req widget = instance_from_request req' widget).
  { intros req req' widget Hagree. unfold instance_from_request, request_values.
    by rewrite (collect_values_ext _ _ _ Hagree). }
  split; [exact Hext|].
  intros widget m path before k v after Hk. apply Hext. intros f Hf. cbn [POST].
  apply dict_of_items_drop. intros Heq. apply Hk. rewrite <- Heq.
  by apply list_elem_of_fmap_2.
Qed.

Lemma X6_only_declared_fields_are_read_witness :
  instance_from_request (Sample.post_request Cases.submitted)
    (Sample.widget_on Sample.ContactWidget (Sample.post_request []))
  = instance_from_request (Sample.post_request [("client", "7"); ("title", "t")])
      (Sample.widget_on Sample.ContactWidget (Sample.post_request [])).
Proof.
  apply (proj2 X6_only_declared_fields_are_read
           (Sample.widget_on Sample.ContactWidget (Sample.post_request []))
           "POST" "/admin/cases/case/add/" [] "csrfmiddlewaretoken" "x9"
           [("client", "7"); ("title", "t")]).
  intros Hin.
  repeat (apply elem_of_cons in Hin as [Hin|Hin]; [discriminate Hin|]).
  by apply elem_of_nil in Hin.
Defined.

Lemma fold_collect_perm items fields1 fields2 :
  fields1 ≡ₚ fields2 ->
  NoDup (name <$> fields1) ->
  fold_left (store_value items) fields1 ∅
  = fold_left (store_value items) fields2 ∅.
Proof.
  intros Hperm Hnd1.
  assert (Hnd2 : NoDup (name <$> fields2)) by by rewrite <- Hperm.
  apply map_eq. intros n.
  destruct (decide (n ∈ name <$> fields1)) as [Hin|Hout].
  - apply list_elem_of_fmap in Hin as (f & -> & Hf).
    rewrite !fold_collect_exact; try done.
    by rewrite <- Hperm.
  - rewrite !fold_collect_frame; try done. by rewrite <- Hperm.
Qed.

Lemma collect_values_perm items fields1 fields2 values :
  fields1 ≡ₚ fields2 ->
  NoDup (name <$> fields1) ->
  collect_values items fields1 ∅ = Ok values ->
  collect_values items fields2 ∅ = Ok values.
Proof.
  intros Hperm Hnd Hvalues. apply collect_values_Ok in Hvalues as [Hall ->].
  rewrite Hperm in Hall. rewrite (collect_values_coercible items _ Hall).
  f_equal. symmetry. by apply fold_collect_perm.
Qed.

(** X7: for a model whose field names are distinct, the order in which the
    fields are declared does not change what [instance_from_request]
    returns: two orders give the same instance, or an exception each (the
    first field that cannot be coerced decides which); when every submitted
    declared field is coercible both give the same instance. *)
Theorem X7_field_order_is_irrelevant (req : Request) (widget widget' : Widget) :
  construct (bf_model (base_field widget)) = construct (bf_model (base_field widget')) ->
  meta_fields (bf_model (base_field widget))
    ≡ₚ meta_fields (bf_model (base_field widget')) ->
  NoDup (name <$> meta_fields (bf_model (base_field widget))) ->
  same_outcome (instance_from_request req widget) (instance_from_request req widget')
  /\ (Forall (coercible (dict_of_items (POST req)))
             (meta_fields (bf_model (base_field widget))) ->
      exists inst,
        instance_from_request req widget = Ok inst
        /\ instance_from_request req widget' = Ok inst).
Proof.
  intros Hconstruct Hperm Hnd.
  assert (Hnd' : NoDup (name <$> meta_fields (bf_model (base_field widget'))))
    by by rewrite <- Hperm.
  unfold instance_from_request, request_values. split.
  - destruct (collect_values _ (meta_fields (bf_model (base_field widget))) ∅)
      as [values|e] eqn:Hvalues.
    + rewrite (collect_values_perm _ _ _ _ Hperm Hnd Hvalues). cbn.
      by rewrite Hconstruct.
    + destruct (collect_values _ (meta_fields (bf_model (base_field widget'))) ∅)
        as [values'|e'] eqn:Hvalues'; [|done].
      symmetry in Hperm.
      rewrite (collect_values_perm _ _ _ _ Hperm Hnd' Hvalues') in Hvalues.
      discriminate.
  - intros Hall. pose proof (collect_values_coercible _ _ Hall ∅) as Hvalues.
    rewrite (collect_values_perm _ _ _ _ Hperm Hnd Hvalues), Hvalues. cbn.
    eexists. split; [reflexivity|]. by rewrite Hconstruct.
Qed.

Lemma X7_field_order_is_irrelevant_witness :
  exists inst,
    instance_from_request (Sample.post_request Cases.submitted)
      (Sample.widget_on Sample.ContactWidget (Sample.post_request []))
    = Ok inst
    /\ instance_from_request (Sample.post_request Cases.submitted)
         Cases.reordered_widget
       = Ok inst.
Proof.
  apply X7_field_order_is_irrelevant.
  - reflexivity.
  - apply (Permutation_cons_append
             [Sample.client_field; Sample.age_field; Sample.title_field]
             Sample.id_field).
  - apply (@bool_decide_unpack _ (NoDup_dec _)). vm_compute. exact I.
  - repeat constructor; intros raw e Hraw Hpy;
      vm_compute in Hraw; try discriminate Hraw;
      injection Hraw as <-; vm_compute in Hpy; congruence.
Defined.

(** ** The shape of the identifier *)

Lemma string_length_app (s1 s2 : string) :
  String.length (s1 +:+ s2) = String.length s1 + String.length s2.
Proof.
  induction s1 as [|a s1 IH]; [reflexivity|].
  change (S (String.length (s1 +:+ s2)) = S (String.length s1 + String.length s2)).
  by rewrite IH.
Qed.

Lemma all_hex_app (s1 s2 : string) :
  all_hex (s1 +:+ s2) = all_hex s1 && all_hex s2.
Proof.
  induction s1 as [|a s1 IH]; [reflexivity|].
  change (is_hex_digit a && all_hex (s1 +:+ s2)
          = is_hex_digit a && all_hex s1 && all_hex s2).
  rewrite IH. by destruct (is_hex_digit a).
Qed.

Lemma hex_digit_is_hex (m : Z) :
  (0 <= m < 16)%Z -> is_hex_digit (hex_digit m) = true.
Proof.
  intros Hm. unfold hex_digit.
  assert (Hk : Z.to_nat m < 16) by lia.
  destruct (Z.to_nat m) as [|k]; [reflexivity|].
  do 15 (destruct k as [|k]; [reflexivity|]). lia.
Qed.

Lemma hex_format (width : nat) : forall n : Z,
  String.length (hex width n) = width /\ all_hex (hex width n) = true.
Proof.
  induction width as [|w IH]; intros n; [by split|].
  cbn [hex]. destruct (IH (n / 16)%Z) as [Hlen Hhex].
  rewrite string_length_app, all_hex_app, Hlen, Hhex. cbn.
  rewrite hex_digit_is_hex by (apply Z.mod_pos_bound; lia).
  split; [lia|reflexivity].
Qed.

Lemma sha1_hexdigest_format data :
  String.length (sha1_hexdigest data) = 40
  /\ all_hex (sha1_hexdigest data) = true.
Proof.
  unfold sha1_hexdigest. cbv zeta.
  rewrite !string_length_app, !all_hex_app.
  by rewrite !(proj1 (hex_format 8 _)), !(proj2 (hex_format 8 _)).
Qed.

(** X8: without an override name, the identifier is an underscore followed
    by exactly forty lower-case hexadecimal digits, whatever the secret, the
    field name and the admin class name are; so is the name stored on a
    constructed widget. *)
Theorem X8_identifier_is_underscore_and_forty_hex_digits :
  (forall env self,
     unique_name self = None ->
     exists digest,
       _hashed_name env self = String "_" digest
       /\ String.length digest = 40 /\ all_hex digest = true)
  /\ (forall env cls bf ma req cf,
        wc_unique_name cls = None ->
        exists digest,
          hashed_name (new_widget env cls bf ma req cf) = String "_" digest
          /\ String.length digest = 40 /\ all_hex digest = true).
Proof.
  assert (Hformat : forall env self,
            unique_name self = None ->
            exists digest,
              _hashed_name env self = String "_" digest
              /\ String.length digest = 40 /\ all_hex digest = true).
  { intros env self Hnone. unfold _hashed_name. rewrite Hnone.
    exists (sha1_hexdigest (salted_string env self)).
    split; [reflexivity|]. apply sha1_hexdigest_format. }
  split; [exact Hformat|].
  intros env cls bf ma req cf Hnone. by apply Hformat.
Qed.

Lemma X8_identifier_is_underscore_and_forty_hex_digits_witness :
  exists digest,
    hashed_name (Sample.widget_on Sample.ContactWidget (Sample.post_request []))
    = String "_" digest
    /\ String.length digest = 40 /\ all_hex digest = true.
Proof.
  apply (proj2 X8_identifier_is_underscore_and_forty_hex_digits). reflexivity.
Defined.

(** X9: without override names, the identifier depends on the secret, the
    field name and the admin class name only through their concatenation:
    two widgets whose three strings concatenate to the same text get the
    same identifier, even when the field names and the class names
    differ. *)
Theorem X9_identifier_depends_on_the_concatenation env1 env2 (w1 w2 : Widget) :
  unique_name w1 = None -> unique_name w2 = None ->
  SECRET_KEY env1 +:+ bf_name (base_field w1) +:+ class_name (modeladmin w1)
  = SECRET_KEY env2 +:+ bf_name (base_field w2) +:+ class_name (modeladmin w2) ->
  _hashed_name env1 w1 = _hashed_name env2 w2.
Proof.
  intros H1 H2 Hconcat. unfold _hashed_name.
  by rewrite H1, H2, !salted_string_concat, Hconcat.
Qed.

Lemma X9_identifier_depends_on_the_concatenation_witness :
  _hashed_name Sample.site
    (new_widget Sample.site Sample.ContactWidget
       (MkBaseField "contact" Sample.case_model)
       (MkModelAdmin "PersonAdmin" (fun _ _ => Ok None))
       (Sample.post_request []) None)
  = _hashed_name Sample.site
      (new_widget Sample.site Sample.ContactWidget
         (MkBaseField "contactPerson" Sample.case_model)
         (MkModelAdmin "Admin" (fun _ _ => Ok None))
         (Sample.post_request []) None).
Proof.
  apply X9_identifier_depends_on_the_concatenation; reflexivity.
Defined.

(** ** How the registry grows *)

Lemma registry_init_insert env wd cls bf ma req cf :
  registry FlexBaseWidget (__init__ env wd cls bf ma req cf).1
  = <[ hashed_name (new_widget env cls bf ma req cf) := next_addr wd ]>
      (registry FlexBaseWidget wd).
Proof.
  apply map_eq. intros key. rewrite registry_after_init.
  destruct (String.eqb _ key) eqn:Heq.
  - apply String.eqb_eq in Heq as <-. by rewrite lookup_insert_eq.
  - apply String.eqb_neq in Heq. by rewrite lookup_insert_ne.
Qed.

(** X10: after any run of operations, the keys of the registry are the keys
    it had before together with the identifiers of the widgets constructed
    during the run: rendering adds none and nothing removes one.  Each
    construction allocates exactly one object, and the registry gains at
    most one key per construction. *)
Theorem X10_registry_keys_after_a_run :
  forall py env ops wd,
    dom (registry FlexBaseWidget (run py env ops wd))
    = dom (registry FlexBaseWidget wd) ∪ list_to_set (constructed env ops)
    /\ next_addr (run py env ops wd) = next_addr wd + length (constructed env ops)
    /\ size (registry FlexBaseWidget (run py env ops wd))
       <= size (registry FlexBaseWidget wd) + length (constructed env ops).
Proof.
  intros py env ops. induction ops as [|o ops IH]; intros wd.
  - change (run py env [] wd) with wd. change (constructed env []) with (@nil string).
    rewrite list_to_set_nil, union_empty_r_L. cbn [length]. split; [done|]. split; lia.
  - change (run py env (o :: ops) wd) with (run py env ops (exec py env wd o)).
    destruct (IH (exec py env wd o)) as (Hdom & Hnext & Hsize).
    rewrite Hdom, Hnext.
    destruct o as [cls bf ma req cf|a n v attrs|f].
    + change (constructed env (OpInit cls bf ma req cf :: ops))
        with (hashed_name (new_widget env cls bf ma req cf) :: constructed env ops).
      cbn [exec] in *. rewrite registry_init_insert in *.
      rewrite dom_insert_L, list_to_set_cons.
      rewrite __init___unfold. cbn [next_addr fst length].
      split; [apply set_eq; intros key; rewrite !elem_of_union; tauto|].
      split; [lia|].
      rewrite map_size_insert in Hsize.
      destruct (registry FlexBaseWidget wd !! _); cbn in *; lia.
    + change (constructed env (OpRender a n v attrs :: ops))
        with (constructed env ops).
      cbn [exec] in *. rewrite registry_after_render in *.
      rewrite (proj2 (call_render_dicts py env wd a n v attrs)). by split.
    + change (constructed env (OpPure f :: ops)) with (constructed env ops).
      by split.
Qed.



(** ** The object identifier in the path *)

Lemma append_cons a (s t : string) : String a s +:+ t = String a (s +:+ t).
Proof. reflexivity. Qed.

Lemma append_empty (s t : string) : s +:+ t = "" -> t = "".
Proof. destruct s as [|a s]; [done|]. rewrite append_cons. discriminate. Qed.

Lemma free_of_cons c a s :
  free_of c (String a s) = true -> is_char c a = false /\ free_of c s = true.
Proof.
  cbn. intros [Ha Hs]%andb_true_iff. split; [|done].
  unfold is_char. rewrite Ascii.eqb_sym. by apply negb_true_iff.
Qed.

Lemma rstrip_app_free c u seg :
  free_of c seg = true -> seg ≠ "" ->
  rstrip (is_char c) (u +:+ seg) = u +:+ seg.
Proof.
  intros Hfree Hne. induction u as [|a u IH].
  - change ("" +:+ seg) with seg.
    induction seg as [|a seg IH]; [done|].
    apply free_of_cons in Hfree as [Ha Hfree]. cbn [rstrip].
    destruct seg as [|b seg]; [cbn; by rewrite Ha|].
    by rewrite IH.
  - rewrite append_cons. cbn [rstrip]. rewrite IH.
    destruct (u +:+ seg) as [|b r] eqn:Happ; [|reflexivity].
    by apply append_empty in Happ.
Qed.

Lemma lstrip_prefix c prefix seg :
  free_of c seg = true ->
  lstrip (is_char c) (prefix +:+ String c seg) = seg
  \/ exists u, lstrip (is_char c) (prefix +:+ String c seg) = u +:+ String c seg.
Proof.
  intros Hfree. induction prefix as [|a prefix IH].
  - left. change ("" +:+ String c seg) with (String c seg). cbn [lstrip].
    unfold is_char at 1. rewrite Ascii.eqb_refl.
    destruct seg as [|b seg]; [reflexivity|].
    apply free_of_cons in Hfree as [Hb _]. cbn [lstrip]. by rewrite Hb.
  - rewrite append_cons. cbn [lstrip]. destruct (is_char c a); [exact IH|].
    right. by exists (String a prefix).
Qed.

Lemma split_free c seg : free_of c seg = true -> split c seg = [seg].
Proof.
  induction seg as [|a seg IH]; [done|]. cbn. intros [Ha Hs]%andb_true_iff.
  apply negb_true_iff in Ha. rewrite Ha, (IH Hs). reflexivity.
Qed.

Lemma split_two c u seg :
  exists h x t, split c (u +:+ String c seg) = h :: x :: t.
Proof.
  induction u as [|a u (h & x & t & IH)].
  - change ("" +:+ String c seg) with (String c seg). cbn [split].
    rewrite Ascii.eqb_refl.
    destruct (split c seg) as [|x t] eqn:Hsplit; [by apply split_not_nil in Hsplit|].
    by eexists _, _, _.
  - rewrite append_cons. cbn [split]. rewrite IH.
    destruct (Ascii.eqb a c); by eexists _, _, _.
Qed.

Lemma last_split_after c u seg :
  last (split c (u +:+ String c seg)) = last (split c seg).
Proof.
  induction u as [|a u IH].
  - change ("" +:+ String c seg) with (String c seg). cbn [split].
    rewrite Ascii.eqb_refl.
    destruct (split c seg) as [|x t] eqn:Hsplit; [by apply split_not_nil in Hsplit|].
    apply last_cons_cons.
  - rewrite append_cons. cbn [split].
    destruct (split_two c u seg) as (h & x & t & Hsplit).
    rewrite Hsplit in IH |- *. rewrite <- IH.
    destruct (Ascii.eqb a c); by rewrite !last_cons_cons.
Qed.

Lemma trailing_segment_last prefix seg :
  free_of "/" seg = true -> seg ≠ "" ->
  trailing_segment (prefix +:+ String "/" seg) = seg.
Proof.
  intros Hfree Hne. unfold trailing_segment, strip.
  destruct (lstrip_prefix "/" prefix seg Hfree) as [->|[u ->]].
  - pose proof (rstrip_app_free "/" "" seg Hfree Hne) as Hkeep.
    change ("" +:+ seg) with seg in Hkeep. rewrite Hkeep.
    by rewrite (split_free _ _ Hfree).
  - change (u +:+ String "/" seg) with (u +:+ ("/" +:+ seg)).
    rewrite <- append_assoc, (rstrip_app_free "/" _ seg Hfree Hne), append_assoc.
    change (u +:+ "/" +:+ seg) with (u +:+ String "/" seg).
    by rewrite last_split_after, (split_free _ _ Hfree).
Qed.

Lemma rstrip_snoc c s :
  rstrip (is_char c) (s +:+ String c "") = rstrip (is_char c) s.
Proof.
  induction s as [|a s IH].
  - change ("" +:+ String c "") with (String c ""). cbn.
    unfold is_char. by rewrite Ascii.eqb_refl.
  - rewrite append_cons. cbn [rstrip]. by rewrite IH.
Qed.

Lemma strip_snoc c s :
  strip (is_char c) (s +:+ String c "") = strip (is_char c) s.
Proof.
  unfold strip. induction s as [|a s IH].
  - change ("" +:+ String c "") with (String c ""). cbn.
    unfold is_char. by rewrite Ascii.eqb_refl.
  - rewrite append_cons. cbn [lstrip]. destruct (is_char c a); [exact IH|].
    rewrite <- append_cons. apply rstrip_snoc.
Qed.

(** X12: on a request that is not a POST whose path is a prefix, a slash
    and a last segment free of slashes, with or without a closing slash,
    the object identifier is read from that last segment alone, whatever
    the builtin [int] accepts: when [int] returns an identifier for it the
    instance is what [get_object] gives for that identifier, and when [int]
    refuses it the result is [None]; the prefix plays no part. *)
Theorem X12_object_id_is_the_last_path_segment
    (py : Python) (self : Widget) (prefix seg : string) :
  method (request self) ≠ "POST" ->
  PATH_INFO (request self) = prefix +:+ "/" +:+ seg
  \/ PATH_INFO (request self) = prefix +:+ "/" +:+ seg +:+ "/" ->
  free_of "/" seg = true ->
  seg ≠ "" ->
  (int py seg = Raise ValueError -> _get_instance py self = Ok None)
  /\ (forall object_id : Z,
        int py seg = Ok object_id ->
        _get_instance py self
        = match get_object (modeladmin self) (request self) object_id with
          | Raise ValueError => Ok None
          | r => r
          end).
Proof.
  intros Hmethod Hpath Hfree Hne.
  assert (Hseg : trailing_segment (PATH_INFO (request self)) = seg).
  { destruct Hpath as [->| ->].
    - by apply trailing_segment_last.
    - change (prefix +:+ "/" +:+ seg +:+ "/")
        with (prefix +:+ (String "/" seg +:+ "/")).
      rewrite <- append_assoc. unfold trailing_segment. rewrite strip_snoc.
      by apply trailing_segment_last. }
  rewrite (_get_instance_from_path py self Hmethod), Hseg.
  split.
  - by intros ->.
  - by intros object_id ->.
Qed.

Lemma X12_object_id_is_the_last_path_segment_witness :
  _get_instance Sample.python
    (Sample.widget_on Sample.ContactWidget
       (Sample.get_request "/admin/cases/case/12/"))
  = Ok (Some Sample.saved_case)
  /\ _get_instance Sample.python
       (Sample.widget_on Sample.ContactWidget
          (Sample.get_request "/admin/cases/case/12"))
     = Ok (Some Sample.saved_case).
Proof.
  split.
  - refine (proj2 (X12_object_id_is_the_last_path_segment Sample.python
                     (Sample.widget_on Sample.ContactWidget
                        (Sample.get_request "/admin/cases/case/12/"))
                     "/admin/cases/case" "12" _ _ _ _) 12%Z _).
    + discriminate.
    + by right.
    + reflexivity.
    + discriminate.
    + reflexivity.
  - refine (proj2 (X12_object_id_is_the_last_path_segment Sample.python
                     (Sample.widget_on Sample.ContactWidget
                        (Sample.get_request "/admin/cases/case/12"))
                     "/admin/cases/case" "12" _ _ _ _) 12%Z _).
    + discriminate.
    + by left.
    + reflexivity.
    + discriminate.
    + reflexivity.
Defined.

(** ** The scripts of the widget *)


